(** * wicker.schema.schema: field algebra, validation and DatasetSchema

    A shallow embedding of [src/wicker/schema/schema.py].

    - Python [str] values are [string]s (sequences of 8-bit characters; a
      non-ASCII character is the sequence of its UTF-8 bytes, none of which
      belongs to an ASCII character class).
    - A constructor call either returns the object or raises: [result].
    - A Python [dict] keeps insertion order and a later assignment to an
      existing key replaces the value in place: [dict] is an association
      list with that update.
    - The classes of the field hierarchy are the constructors of
      [SchemaField]; each [__init__] is a function [<Class>_init] into
      [result].
    - [codecs.Codec] and [json.dumps] live outside this module and are taken
      as parameters. *)

From Stdlib Require Import String Ascii List Bool Arith Lia.
Import ListNotations.
Open Scope string_scope.
Set Warnings "-register-all".

(** ** Exceptions and results *)

Inductive exception : Type :=
| ValueError (msg : string)
| WickerSchemaException (msg : string).

Inductive result (A : Type) : Type :=
| Ok (a : A)
| Raise (e : exception).

Arguments Ok {A} a.
Arguments Raise {A} e.

Definition bind {A B : Type} (r : result A) (k : A -> result B) : result B :=
  match r with
  | Ok a => k a
  | Raise e => Raise e
  end.

Notation "x <- c ;; k" := (bind c (fun x => k))
  (at level 61, c at next level, right associativity).

(** [succeeds r]: the call returned; [raises r]: it raised. *)
Definition succeeds {A : Type} (r : result A) : bool :=
  match r with Ok _ => true | Raise _ => false end.

Definition raises {A : Type} (r : result A) : bool := negb (succeeds r).

(** ** Characters and the name pattern *)

Definition LF : ascii := ascii_of_nat 10.
Definition CR : ascii := ascii_of_nat 13.
Definition TAB : ascii := ascii_of_nat 9.
Definition DQUOTE : ascii := ascii_of_nat 34.
Definition SQUOTE : ascii := ascii_of_nat 39.
Definition BACKSLASH : ascii := ascii_of_nat 92.

Definition in_range (lo hi c : ascii) : bool :=
  Nat.leb (nat_of_ascii lo) (nat_of_ascii c) && Nat.leb (nat_of_ascii c) (nat_of_ascii hi).

(** The character class [[a-zA-Z]]. *)
Definition class_alpha (c : ascii) : bool :=
  in_range "a" "z" c || in_range "A" "Z" c.

(** The character class [[0-9a-zA-Z_]]. *)
Definition class_word (c : ascii) : bool :=
  in_range "0" "9" c || in_range "a" "z" c || in_range "A" "Z" c
  || Ascii.eqb c "_".

(** Python's [$] without [re.MULTILINE]: at the end of the string, and also
    just before a line feed that is the last character of the string. *)
Definition at_dollar (s : string) : bool :=
  match s with
  | EmptyString => true
  | String c EmptyString => Ascii.eqb c LF
  | _ => false
  end.

(** [[0-9a-zA-Z_]*$] on the rest of the string: the star takes a character
    of the class and goes on, or gives up and [$] is tried here. *)
Fixpoint match_word_star_dollar (s : string) : bool :=
  match s with
  | EmptyString => at_dollar s
  | String c s' => (class_word c && match_word_star_dollar s') || at_dollar s
  end.

(** [re.match(r"^[a-zA-Z][0-9a-zA-Z_]*$", name)] as a boolean. *)
Definition name_re_match (name : string) : bool :=
  match name with
  | EmptyString => false
  | String c s => class_alpha c && match_word_star_dollar s
  end.

(** The grammar as the specification words it: first character alphabetic,
    every other character alphanumeric or underscore, nothing else. *)
Fixpoint all_word (s : string) : bool :=
  match s with
  | EmptyString => true
  | String c s' => class_word c && all_word s'
  end.

Definition name_grammar (name : string) : bool :=
  match name with
  | EmptyString => false
  | String c s => class_alpha c && all_word s
  end.

(** ** [repr] of a [str] and of a list of [str], as an f-string prints it *)

Definition hex_digit (n : nat) : ascii :=
  nth n ["0"; "1"; "2"; "3"; "4"; "5"; "6"; "7"; "8"; "9";
         "a"; "b"; "c"; "d"; "e"; "f"]%char "0"%char.

Fixpoint contains_char (c : ascii) (s : string) : bool :=
  match s with
  | EmptyString => false
  | String d s' => Ascii.eqb c d || contains_char c s'
  end.

(** Double quotes are used only when the text has a single quote and no
    double quote. *)
Definition repr_quote (s : string) : ascii :=
  if contains_char SQUOTE s && negb (contains_char DQUOTE s)
  then DQUOTE else SQUOTE.

(** One character inside the quotes [q].  Characters above 127 are kept
    (exact for the printable ones). *)
Definition repr_char (q c : ascii) : string :=
  let n := nat_of_ascii c in
  if Ascii.eqb c BACKSLASH then String BACKSLASH (String BACKSLASH "")
  else if Ascii.eqb c q then String BACKSLASH (String q "")
  else if Ascii.eqb c LF then String BACKSLASH "n"
  else if Ascii.eqb c CR then String BACKSLASH "r"
  else if Ascii.eqb c TAB then String BACKSLASH "t"
  else if Nat.ltb n 32 || Nat.eqb n 127
       then String BACKSLASH
              (String "x" (String (hex_digit (n / 16)) (String (hex_digit (n mod 16)) "")))
  else String c "".

Fixpoint repr_body (q : ascii) (s : string) : string :=
  match s with
  | EmptyString => ""
  | String c s' => repr_char q c ++ repr_body q s'
  end.

Definition py_repr (s : string) : string :=
  let q := repr_quote s in
  String q (repr_body q s ++ String q "").

(** [str(list)]: the elements' [repr], joined ([String.concat] is
    [sep.join]). *)
Definition py_repr_list (l : list string) : string :=
  "[" ++ String.concat ", " (map py_repr l) ++ "]".

(** [x in s] on two [str]: [x] occurs in [s] as a contiguous run
    ([String.prefix x s] is [s.startswith(x)]). *)
Fixpoint str_contains (x s : string) : bool :=
  match s with
  | EmptyString => String.prefix x s
  | String _ s' => String.prefix x s || str_contains x s'
  end.

(** [only_raises P r]: if the call [r] raised, the exception satisfies [P]. *)
Definition only_raises {A : Type} (P : exception -> Prop) (r : result A) : Prop :=
  match r with
  | Ok _ => True
  | Raise e => P e
  end.

(** ** Insertion-ordered dictionaries with [str] keys *)

Section Dict.
Context {V : Type}.

Definition dict : Type := list (string * V).

(** [d.get(k)] *)
Fixpoint dict_get (d : dict) (k : string) : option V :=
  match d with
  | [] => None
  | (k', v) :: d' => if String.eqb k' k then Some v else dict_get d' k
  end.

(** [d[k] = v] *)
Fixpoint dict_set (d : dict) (k : string) (v : V) : dict :=
  match d with
  | [] => [(k, v)]
  | (k', v') :: d' =>
      if String.eqb k' k then (k', v) :: d' else (k', v') :: dict_set d' k v
  end.

(** [k in d] *)
Definition dict_contains (d : dict) (k : string) : bool :=
  match dict_get d k with Some _ => true | None => false end.

(** [list(d.keys())] and [d.items()] *)
Definition dict_keys (d : dict) : list string := map fst d.
Definition dict_items (d : dict) : list (string * V) := d.

(** A dict display [{k1: v1, k2: v2, ...}]. *)
Definition dict_literal (kvs : list (string * V)) : dict :=
  fold_left (fun d kv => dict_set d (fst kv) (snd kv)) kvs [].
End Dict.

Arguments dict V : clear implicits.

(** ** The codec interface (module [wicker.schema.codecs]) *)

Class CodecInterface (Codec : Type) : Type := {
  (** [codec.get_codec_name()] *)
  get_codec_name : Codec -> string;
  (** [json.dumps(codec.save_codec_to_dict())] *)
  codec_params_json : Codec -> string;
  (** [codec == other] *)
  codec_eq : Codec -> Codec -> bool
}.

(** A codec given by its name and its serialized parameters, equal to
    another when both agree. *)
Record NamedCodec : Type := {
  nc_name : string;
  nc_params : string
}.

#[export] Instance NamedCodec_interface : CodecInterface NamedCodec := {
  get_codec_name := nc_name;
  codec_params_json := nc_params;
  codec_eq := fun a b =>
    String.eqb (nc_name a) (nc_name b) && String.eqb (nc_params a) (nc_params b)
}.

(** [json.dumps] of a list of [str], exact on printable ASCII text without
    quotes and backslashes (so on every list of valid field names). *)
Definition json_dumps_plain (l : list string) : string :=
  "[" ++ String.concat ", " (map (fun s => String DQUOTE (s ++ String DQUOTE "")) l)
  ++ "]".

(** ** The field hierarchy *)

Section Schema.

Context {Codec : Type} {codec_interface : CodecInterface Codec}.

(** [json.dumps] applied to the list of primary keys. *)
Variable json_dumps : list string -> string.

(** The attributes set by [SchemaField.__init__]. *)
Record Base : Type := {
  base_name : string;
  base_description : string;
  base_required : bool;
  base_custom_field_tags : dict string
}.

(** One constructor per concrete class; none of them derives from
    another. *)
Inductive SchemaField : Type :=
| IntField (b : Base)
| LongField (b : Base)
| StringField (b : Base)
| BoolField (b : Base)
| FloatField (b : Base)
| DoubleField (b : Base)
| RecordField (b : Base) (fields : list SchemaField)
| ArrayField (b : Base) (element_field : SchemaField)
| ObjectField (b : Base) (_is_heavy_pointer : bool) (codec : Codec).

(** [type(field)] *)
Inductive FieldClass : Type :=
| IntFieldT | LongFieldT | StringFieldT | BoolFieldT | FloatFieldT
| DoubleFieldT | RecordFieldT | ArrayFieldT | ObjectFieldT.

Definition type_of (f : SchemaField) : FieldClass :=
  match f with
  | IntField _ => IntFieldT
  | LongField _ => LongFieldT
  | StringField _ => StringFieldT
  | BoolField _ => BoolFieldT
  | FloatField _ => FloatFieldT
  | DoubleField _ => DoubleFieldT
  | RecordField _ _ => RecordFieldT
  | ArrayField _ _ => ArrayFieldT
  | ObjectField _ _ _ => ObjectFieldT
  end.

Definition FieldClass_eqb (a b : FieldClass) : bool :=
  match a, b with
  | IntFieldT, IntFieldT | LongFieldT, LongFieldT
  | StringFieldT, StringFieldT | BoolFieldT, BoolFieldT
  | FloatFieldT, FloatFieldT | DoubleFieldT, DoubleFieldT
  | RecordFieldT, RecordFieldT | ArrayFieldT, ArrayFieldT
  | ObjectFieldT, ObjectFieldT => true
  | _, _ => false
  end.

(** [isinstance(f, cls)] for a concrete class [cls]. *)
Definition isinstance (f : SchemaField) (cls : FieldClass) : bool :=
  FieldClass_eqb (type_of f) cls.

Definition base (f : SchemaField) : Base :=
  match f with
  | IntField b | LongField b | StringField b | BoolField b
  | FloatField b | DoubleField b
  | RecordField b _ | ArrayField b _ | ObjectField b _ _ => b
  end.

Definition name (f : SchemaField) : string := base_name (base f).
Definition description (f : SchemaField) : string := base_description (base f).
Definition required (f : SchemaField) : bool := base_required (base f).
Definition custom_field_tags (f : SchemaField) : dict string :=
  base_custom_field_tags (base f).

(** The property [is_heavy_pointer]: [False] in [SchemaField], overridden
    by [ObjectField]. *)
Definition is_heavy_pointer (f : SchemaField) : bool :=
  match f with
  | ObjectField _ h _ => h
  | _ => false
  end.

(** *** Constructors *)

Definition NAME_ERROR : string :=
  "Schema name must contain only alphanumeric characters or underscores and cannot start with a number or underscore".

(** [SchemaField.__init__] *)
Definition SchemaField_init (name description : string) (required : bool)
    (custom_field_tags : dict string) : result Base :=
  if negb (name_re_match name) then Raise (ValueError NAME_ERROR)
  else Ok {| base_name := name;
             base_description := description;
             base_required := required;
             base_custom_field_tags := custom_field_tags |}.

(** The six scalar classes inherit [SchemaField.__init__]: [cls] is the
    class that is instantiated. *)
Definition scalar_init (cls : Base -> SchemaField) (name description : string)
    (required : bool) (custom_field_tags : dict string) : result SchemaField :=
  b <- SchemaField_init name description required custom_field_tags ;;
  Ok (cls b).

Definition IntField_init := scalar_init IntField.
Definition LongField_init := scalar_init LongField.
Definition StringField_init := scalar_init StringField.
Definition BoolField_init := scalar_init BoolField.
Definition FloatField_init := scalar_init FloatField.
Definition DoubleField_init := scalar_init DoubleField.

(** [[f.name for f in fields if f.is_heavy_pointer]] *)
Definition heavy_names (fields : list SchemaField) : list string :=
  map name (filter is_heavy_pointer fields).

Definition HEAVY_ERROR (names : list string) : string :=
  "Heavy pointer fields cannot be nested in a RecordField: " ++ py_repr_list names.

(** [RecordField.__init__] *)
Definition RecordField_init (name : string) (fields : list SchemaField)
    (description : string) (required : bool) (custom_field_tags : dict string)
    (top_level : bool) : result SchemaField :=
  b <- SchemaField_init name description required custom_field_tags ;;
  if negb top_level && existsb is_heavy_pointer fields
  then Raise (WickerSchemaException
                (HEAVY_ERROR (heavy_names fields)))
  else Ok (RecordField b fields).

(** [ArrayField.__init__]: name, description and tags come from the element
    field, which is an object built before. *)
Definition ArrayField_init (element_field : SchemaField) (required : bool)
    : result SchemaField :=
  b <- SchemaField_init (name element_field) (description element_field)
         required (custom_field_tags element_field) ;;
  Ok (ArrayField b element_field).

(** The message is a plain string literal in the source (no [f] prefix), so
    [{name}] is printed as it stands. *)
Definition CODEC_ERROR : string :=
  "Codec names must be non-empty. Encountered at field={name}".

(** Truth value of a [str]: false exactly for the empty string. *)
Definition str_truthy (s : string) : bool :=
  match s with EmptyString => false | _ => true end.

Definition object_tags (codec : Codec) : dict string :=
  dict_literal [("_l5ml_metatype", "object");
                ("_codec_params", codec_params_json codec);
                ("_codec_name", get_codec_name codec)].

(** [ObjectField.__init__] *)
Definition ObjectField_init (name : string) (codec : Codec)
    (description : string) (required : bool) (is_heavy_pointer : bool)
    : result SchemaField :=
  if negb (str_truthy (get_codec_name codec))
  then Raise (WickerSchemaException CODEC_ERROR)
  else
    let custom_field_tags := object_tags codec in
    b <- SchemaField_init name description required custom_field_tags ;;
    Ok (ObjectField b is_heavy_pointer codec).

(** *** Equality *)

(** [SchemaField.__eq__] *)
Definition SchemaField_eq (self other : SchemaField) : bool :=
  if negb (isinstance other (type_of self)) then false
  else if negb (String.eqb (name self) (name other)) then false
  else if negb (String.eqb (description self) (description other)) then false
  else if negb (Bool.eqb (required self) (required other)) then false
  else true.

(** [self == other], dispatched on the class of [self]:
    [RecordField.__eq__], [ArrayField.__eq__], [ObjectField.__eq__] and the
    inherited [SchemaField.__eq__].  The attribute of [other] is read only
    after [super().__eq__(other)] has shown it to be of the class of
    [self]. *)
Fixpoint field_eq (self other : SchemaField) : bool :=
  match self with
  | RecordField _ self_fields =>
      SchemaField_eq self other
      && match other with
         | RecordField _ other_fields =>
             Nat.eqb (length self_fields) (length other_fields)
             && (fix all_zip (l1 l2 : list SchemaField) : bool :=
                   match l1, l2 with
                   | self_field :: l1', other_field :: l2' =>
                       field_eq self_field other_field && all_zip l1' l2'
                   | _, _ => true
                   end) self_fields other_fields
         | _ => false
         end
  | ArrayField _ self_element =>
      SchemaField_eq self other
      && match other with
         | ArrayField _ other_element => field_eq self_element other_element
         | _ => false
         end
  | ObjectField _ _ self_codec =>
      SchemaField_eq self other
      && match other with
         | ObjectField _ _ other_codec => codec_eq self_codec other_codec
         | _ => false
         end
  | _ => SchemaField_eq self other
  end.

(** [all([a == b for a, b in zip(l1, l2)])] *)
Fixpoint all_zip_eq (l1 l2 : list SchemaField) : bool :=
  match l1, l2 with
  | self_field :: l1', other_field :: l2' =>
      field_eq self_field other_field && all_zip_eq l1' l2'
  | _, _ => true
  end.

(** ** DatasetSchema *)

Definition PRIMARY_KEYS_TAG : string := "_primary_keys".

Record DatasetSchema : Type := {
  schema_record : SchemaField;
  _columns : dict SchemaField;
  primary_keys : list string
}.

(** [{f.name: f for f in fields}] *)
Definition columns_of (fields : list SchemaField) : dict SchemaField :=
  fold_left (fun d f => dict_set d (name f) f) fields [].

Definition EMPTY_KEYS_ERROR : string :=
  "The primary_keys attribute can not be empty.".

Definition KEY_NOT_FOUND_ERROR (key : string) : string :=
  "Primary key '" ++ key ++ "' not found in the schema's fields.".

Definition KEY_NOT_REQUIRED_ERROR (key : string) : string :=
  "All primary key fields must have the 'required' tag, but '" ++ key
  ++ "' doesn't have it.".

Definition KEY_TYPE_ERROR (key : string) : string :=
  "'" ++ key
  ++ "' cannot be a primary key because it is not of type int, long, string or bool.".

Definition supported_types : list FieldClass :=
  [IntFieldT; LongFieldT; StringFieldT; BoolFieldT].

(** The body of the loop over the primary keys.  [key not in self._columns]
    is the lookup that finds nothing; otherwise [self._columns[key]] is the
    field found. *)
Definition check_key (columns : dict SchemaField) (key : string) : result unit :=
  match dict_get columns key with
  | None => Raise (WickerSchemaException (KEY_NOT_FOUND_ERROR key))
  | Some field =>
      if negb (required field)
      then Raise (WickerSchemaException (KEY_NOT_REQUIRED_ERROR key))
      else if negb (existsb (isinstance field) supported_types)
      then Raise (WickerSchemaException (KEY_TYPE_ERROR key))
      else Ok tt
  end.

(** [for key in self.primary_keys: ...] *)
Fixpoint check_keys (columns : dict SchemaField) (keys : list string)
    : result unit :=
  match keys with
  | [] => Ok tt
  | key :: rest => _ <- check_key columns key ;; check_keys columns rest
  end.

(** [DatasetSchema._validate_schema] *)
Definition _validate_schema (self : DatasetSchema)
    (allow_empty_primary_keys : bool) : result unit :=
  if negb allow_empty_primary_keys
     && negb (match primary_keys self with [] => false | _ => true end)
  then Raise (WickerSchemaException EMPTY_KEYS_ERROR)
  else check_keys (_columns self) (primary_keys self).

(** [DatasetSchema.__init__] *)
Definition DatasetSchema_init (fields : list SchemaField)
    (primary_keys : list string) (allow_empty_primary_keys : bool)
    : result DatasetSchema :=
  schema_record <-
    RecordField_init "fields" fields "" true
      (dict_literal [(PRIMARY_KEYS_TAG, json_dumps primary_keys)]) true ;;
  let self := {| schema_record := schema_record;
                 _columns := columns_of fields;
                 primary_keys := primary_keys |} in
  _ <- _validate_schema self allow_empty_primary_keys ;;
  Ok self.

(** The object that [DatasetSchema.__init__] has built when it returns. *)
Definition built_schema (fields : list SchemaField) (primary_keys : list string)
    : DatasetSchema :=
  {| schema_record :=
       RecordField
         {| base_name := "fields";
            base_description := "";
            base_required := true;
            base_custom_field_tags :=
              dict_literal [(PRIMARY_KEYS_TAG, json_dumps primary_keys)] |}
         fields;
     _columns := columns_of fields;
     primary_keys := primary_keys |}.

(** A key passes the three checks of the loop: it names a column, the
    column is required, and the column is an int, long, string or bool
    field. *)
Definition key_passes (columns : dict SchemaField) (key : string) : Prop :=
  exists field,
    dict_get columns key = Some field
    /\ required field = true
    /\ In (type_of field) [IntFieldT; LongFieldT; StringFieldT; BoolFieldT].

(** The last of the fields that has the given name. *)
Definition last_named (fields : list SchemaField) (column_name : string)
    : option SchemaField :=
  find (fun f => String.eqb (name f) column_name) (rev fields).

(** [get_all_column_names] *)
Definition get_all_column_names (self : DatasetSchema) : list string :=
  dict_keys (_columns self).

(** [get_column] *)
Definition get_column (self : DatasetSchema) (column_name : string)
    : option SchemaField :=
  dict_get (_columns self) column_name.

(** [get_pointer_columns] *)
Definition get_pointer_columns (self : DatasetSchema) : list string :=
  map fst (filter (fun item => is_heavy_pointer (snd item))
                  (dict_items (_columns self))).

(** [get_non_pointer_columns] *)
Definition get_non_pointer_columns (self : DatasetSchema) : list string :=
  map fst (filter (fun item => negb (is_heavy_pointer (snd item)))
                  (dict_items (_columns self))).

(** [list == list] on lists of [str] *)
Fixpoint list_str_eq (l1 l2 : list string) : bool :=
  match l1, l2 with
  | [], [] => true
  | x :: l1', y :: l2' => String.eqb x y && list_str_eq l1' l2'
  | _, _ => false
  end.

(** [DatasetSchema.__eq__] against another [DatasetSchema] *)
Definition DatasetSchema_eq (self other : DatasetSchema) : bool :=
  field_eq (schema_record self) (schema_record other)
  && list_str_eq (primary_keys self) (primary_keys other).

(** ** The query operations as calls *)

(** A list comprehension [[out(x) for x in l if keep(x)]] whose condition is
    a call: the call is made for each element in turn, and the first one
    that raises ends the comprehension. *)
Fixpoint comprehension {A B : Type} (keep : A -> result bool) (out : A -> B)
    (l : list A) : result (list B) :=
  match l with
  | [] => Ok []
  | x :: l' =>
      k <- keep x ;;
      rest <- comprehension keep out l' ;;
      Ok (if k then out x :: rest else rest)
  end.

(** Reading the property [field.is_heavy_pointer]: both getters return. *)
Definition is_heavy_pointer_call (f : SchemaField) : result bool :=
  Ok (is_heavy_pointer f).

(** [self._columns.get(column_name)]: [dict.get] returns [None] for a key
    that is absent ([self._columns[column_name]] would raise). *)
Definition get_column_call (self : DatasetSchema) (column_name : string)
    : result (option SchemaField) :=
  Ok (dict_get (_columns self) column_name).

Definition get_all_column_names_call (self : DatasetSchema)
    : result (list string) :=
  Ok (dict_keys (_columns self)).

Definition get_pointer_columns_call (self : DatasetSchema)
    : result (list string) :=
  comprehension (fun item => is_heavy_pointer_call (snd item)) fst
    (dict_items (_columns self)).

Definition get_non_pointer_columns_call (self : DatasetSchema)
    : result (list string) :=
  comprehension
    (fun item => h <- is_heavy_pointer_call (snd item) ;; Ok (negb h)) fst
    (dict_items (_columns self)).

(** ** The order of the checks as the specification words it *)

(** One check made for every key, in the order of the keys. *)
Fixpoint check_all (check : string -> result unit) (keys : list string)
    : result unit :=
  match keys with
  | [] => Ok tt
  | key :: rest => _ <- check key ;; check_all check rest
  end.

Definition existence_check (columns : dict SchemaField) (key : string)
    : result unit :=
  match dict_get columns key with
  | None => Raise (WickerSchemaException (KEY_NOT_FOUND_ERROR key))
  | Some _ => Ok tt
  end.

Definition requiredness_check (columns : dict SchemaField) (key : string)
    : result unit :=
  match dict_get columns key with
  | Some field =>
      if negb (required field)
      then Raise (WickerSchemaException (KEY_NOT_REQUIRED_ERROR key))
      else Ok tt
  | None => Ok tt
  end.

Definition type_check (columns : dict SchemaField) (key : string)
    : result unit :=
  match dict_get columns key with
  | Some field =>
      if negb (existsb (isinstance field) supported_types)
      then Raise (WickerSchemaException (KEY_TYPE_ERROR key))
      else Ok tt
  | None => Ok tt
  end.

(** Emptiness, then existence, then requiredness, then type, each as one
    check of the whole key list; the first check that fails raises. *)
Definition validate_in_phases (columns : dict SchemaField)
    (keys : list string) (allow_empty_primary_keys : bool) : result unit :=
  if negb allow_empty_primary_keys
     && negb (match keys with [] => false | _ => true end)
  then Raise (WickerSchemaException EMPTY_KEYS_ERROR)
  else
    _ <- check_all (existence_check columns) keys ;;
    _ <- check_all (requiredness_check columns) keys ;;
    check_all (type_check columns) keys.

(** ** The visitor *)

(** [DatasetSchemaVisitor[_T]]: an object with one method per class of
    field, each taking the field and returning a [_T]. *)
Record DatasetSchemaVisitor (T : Type) : Type := {
  process_int_field : SchemaField -> T;
  process_long_field : SchemaField -> T;
  process_string_field : SchemaField -> T;
  process_bool_field : SchemaField -> T;
  process_float_field : SchemaField -> T;
  process_double_field : SchemaField -> T;
  process_object_field : SchemaField -> T;
  process_record_field : SchemaField -> T;
  process_array_field : SchemaField -> T
}.

Arguments process_int_field {T} _ _.
Arguments process_long_field {T} _ _.
Arguments process_string_field {T} _ _.
Arguments process_bool_field {T} _ _.
Arguments process_float_field {T} _ _.
Arguments process_double_field {T} _ _.
Arguments process_object_field {T} _ _.
Arguments process_record_field {T} _ _.
Arguments process_array_field {T} _ _.

(** [field.accept_visitor(visitor)], as each class overrides it. *)
Definition accept_visitor {T : Type} (self : SchemaField)
    (visitor : DatasetSchemaVisitor T) : T :=
  match self with
  | IntField _ => process_int_field visitor self
  | LongField _ => process_long_field visitor self
  | StringField _ => process_string_field visitor self
  | BoolField _ => process_bool_field visitor self
  | FloatField _ => process_float_field visitor self
  | DoubleField _ => process_double_field visitor self
  | RecordField _ _ => process_record_field visitor self
  | ArrayField _ _ => process_array_field visitor self
  | ObjectField _ _ _ => process_object_field visitor self
  end.

(** ** What the constructors establish *)

(** The six classes that only inherit [SchemaField.__init__]. *)
Definition scalar_classes : list (Base -> SchemaField) :=
  [IntField; LongField; StringField; BoolField; FloatField; DoubleField].

(** A field tree in the state in which the constructors leave it: every
    node has a name accepted by the name check; an array has the name, the
    description and the tags of its element; an object has a codec with a
    name and carries the tags made from its codec. *)
Fixpoint well_formed (f : SchemaField) : Prop :=
  name_re_match (name f) = true
  /\ match f with
     | RecordField _ fields =>
         (fix all (l : list SchemaField) : Prop :=
            match l with
            | [] => True
            | g :: l' => well_formed g /\ all l'
            end) fields
     | ArrayField b element_field =>
         base_name b = name element_field
         /\ base_description b = description element_field
         /\ base_custom_field_tags b = custom_field_tags element_field
         /\ well_formed element_field
     | ObjectField b _ codec =>
         get_codec_name codec <> ""
         /\ base_custom_field_tags b = object_tags codec
     | _ => True
     end.

End Schema.

Arguments SchemaField Codec : clear implicits.
Arguments DatasetSchema Codec : clear implicits.
Arguments process_int_field {Codec T} _ _.
Arguments process_long_field {Codec T} _ _.
Arguments process_string_field {Codec T} _ _.
Arguments process_bool_field {Codec T} _ _.
Arguments process_float_field {Codec T} _ _.
Arguments process_double_field {Codec T} _ _.
Arguments process_object_field {Codec T} _ _.
Arguments process_record_field {Codec T} _ _.
Arguments process_array_field {Codec T} _ _.

(** ** Objects used in the examples *)

Definition blob_codec : NamedCodec :=
  {| nc_name := "blob_codec"; nc_params := "{}" |}.

Definition unnamed_codec : NamedCodec :=
  {| nc_name := ""; nc_params := "{}" |}.

(** The attributes of a field built with the default description and no
    custom tags. *)
Definition plain (name : string) (required : bool) : Base :=
  {| base_name := name;
     base_description := "";
     base_required := required;
     base_custom_field_tags := [] |}.

(** [ObjectField("blob", codec=blob_codec)] *)
Definition blob : SchemaField NamedCodec :=
  ObjectField
    {| base_name := "blob";
       base_description := "";
       base_required := true;
       base_custom_field_tags := object_tags blob_codec |}
    true blob_codec.

(** [LongField("id")], [StringField("label")], [FloatField("score")] and
    [FloatField("score", required=False)] *)
Definition id_field : SchemaField NamedCodec := LongField (plain "id" true).
Definition label_field : SchemaField NamedCodec := StringField (plain "label" true).
Definition score_field : SchemaField NamedCodec := FloatField (plain "score" true).
Definition optional_score : SchemaField NamedCodec :=
  FloatField (plain "score" false).

(** Three fields of one name: [ObjectField("data", codec=blob_codec)],
    [IntField("data")] and [StringField("data")]. *)
Definition data_object : SchemaField NamedCodec :=
  ObjectField
    {| base_name := "data";
       base_description := "";
       base_required := true;
       base_custom_field_tags := object_tags blob_codec |}
    true blob_codec.
Definition data_int : SchemaField NamedCodec := IntField (plain "data" true).
Definition data_string : SchemaField NamedCodec := StringField (plain "data" true).

(** [ObjectField("blob", codec=blob_codec, is_heavy_pointer=False)] *)
Definition light_blob : SchemaField NamedCodec :=
  ObjectField
    {| base_name := "blob";
       base_description := "";
       base_required := true;
       base_custom_field_tags := object_tags blob_codec |}
    false blob_codec.

(** A visitor whose methods answer with the class they are written for. *)
Definition class_visitor : @DatasetSchemaVisitor NamedCodec FieldClass :=
  {| process_int_field := fun _ => IntFieldT;
     process_long_field := fun _ => LongFieldT;
     process_string_field := fun _ => StringFieldT;
     process_bool_field := fun _ => BoolFieldT;
     process_float_field := fun _ => FloatFieldT;
     process_double_field := fun _ => DoubleFieldT;
     process_object_field := fun _ => ObjectFieldT;
     process_record_field := fun _ => RecordFieldT;
     process_array_field := fun _ => ArrayFieldT |}.

(** [ArrayField(blob)]: an array of heavy-pointer objects. *)
Definition blob_array : SchemaField NamedCodec :=
  ArrayField
    {| base_name := "blob";
       base_description := "";
       base_required := true;
       base_custom_field_tags := object_tags blob_codec |}
    blob.

(** * Properties *)

Section SchemaProofs.

Context {Codec : Type} {codec_interface : CodecInterface Codec}.
Variable json_dumps : list string -> string.

(** ** The name pattern against the grammar *)

Lemma all_word_match : forall s,
  all_word s = true -> match_word_star_dollar s = true.
Proof.
  induction s as [|c s IH]; simpl; intro H; [reflexivity|].
  apply andb_true_iff in H as [Hc Hs].
  rewrite Hc, (IH Hs). reflexivity.
Qed.

Lemma match_word_star_dollar_iff : forall s,
  match_word_star_dollar s = true <->
  all_word s = true \/ exists w, all_word w = true /\ s = w ++ String LF "".
Proof.
  induction s as [|c s IH].
  - simpl. split; [left; reflexivity | reflexivity].
  - cbn [match_word_star_dollar all_word]. split.
    + intro H. apply orb_true_iff in H as [H|H].
      * apply andb_true_iff in H as [Hc Hs].
        apply IH in Hs as [Hs|[w [Hw ->]]].
        -- left. now rewrite Hc, Hs.
        -- right. exists (String c w). simpl. now rewrite Hc, Hw.
      * right. exists "". split; [reflexivity|].
        destruct s; [|discriminate]. simpl in H.
        apply Ascii.eqb_eq in H. now subst.
    + intros [H|[w [Hw Heq]]].
      * apply andb_true_iff in H as [Hc Hs].
        rewrite Hc, (all_word_match _ Hs). reflexivity.
      * destruct w as [|d w]; simpl in Heq.
        -- injection Heq as -> ->. apply orb_true_iff. right. reflexivity.
        -- injection Heq as -> ->. simpl in Hw.
           apply andb_true_iff in Hw as [Hd Hw].
           rewrite Hd. simpl.
           apply orb_true_iff. left. apply IH. right. now exists w.
Qed.

(** The pattern accepts the names of the grammar, and the names of the
    grammar followed by one line feed, and nothing else. *)
Lemma name_re_match_iff : forall name,
  name_re_match name = true <->
  name_grammar name = true
  \/ exists w, name_grammar w = true /\ name = w ++ String LF "".
Proof.
  intros [|c s]; simpl.
  - split; [discriminate|]. intros [H|[w [Hw Heq]]]; [discriminate|].
    destruct w; discriminate.
  - rewrite andb_true_iff, match_word_star_dollar_iff. split.
    + intros [Hc [Hs|[w [Hw ->]]]].
      * left. now rewrite Hc, Hs.
      * right. exists (String c w). simpl. now rewrite Hc, Hw.
    + intros [H|[w [Hw Heq]]].
      * apply andb_true_iff in H as [Hc Hs]. auto.
      * destruct w as [|d w]; [discriminate|].
        simpl in Heq. injection Heq as -> ->. simpl in Hw.
        apply andb_true_iff in Hw as [Hd Hw]. split; [assumption|].
        right. now exists w.
Qed.

Lemma name_grammar_re_match : forall name,
  name_grammar name = true -> name_re_match name = true.
Proof. intros name H. apply name_re_match_iff. now left. Qed.

Lemma name_re_match_no_lf : forall name,
  (forall w, name_grammar w = true -> name <> w ++ String LF "") ->
  name_re_match name = name_grammar name.
Proof.
  intros name Hlf.
  destruct (name_grammar name) eqn:Hg.
  - now apply name_grammar_re_match.
  - destruct (name_re_match name) eqn:Hm; [|reflexivity].
    apply name_re_match_iff in Hm as [Hm|[w [Hw Heq]]].
    + congruence.
    + exfalso. exact (Hlf w Hw Heq).
Qed.

(** ** Constructors *)

Lemma SchemaField_init_succeeds : forall name description required tags,
  succeeds (SchemaField_init name description required tags) = name_re_match name.
Proof.
  intros name description required tags.
  unfold SchemaField_init. now destruct (name_re_match name).
Qed.

Lemma scalar_init_succeeds :
  forall (cls : Base -> SchemaField Codec) name description required tags,
  succeeds (scalar_init cls name description required tags) = name_re_match name.
Proof.
  intros cls name description required tags.
  unfold scalar_init, SchemaField_init.
  now destruct (name_re_match name).
Qed.

Lemma RecordField_init_succeeds :
  forall name (fields : list (SchemaField Codec)) description required tags top_level,
  succeeds (RecordField_init name fields description required tags top_level)
  = name_re_match name && (top_level || negb (existsb is_heavy_pointer fields)).
Proof.
  intros name fields description required tags top_level.
  unfold RecordField_init, SchemaField_init.
  destruct (name_re_match name); simpl; [|reflexivity].
  destruct top_level; simpl; [reflexivity|].
  now destruct (existsb is_heavy_pointer fields).
Qed.

Lemma ArrayField_init_succeeds : forall (element_field : SchemaField Codec) required,
  succeeds (ArrayField_init element_field required)
  = name_re_match (name element_field).
Proof.
  intros element_field required.
  unfold ArrayField_init, SchemaField_init.
  now destruct (name_re_match (name element_field)).
Qed.

Lemma ObjectField_init_succeeds :
  forall name (codec : Codec) description required heavy,
  succeeds (ObjectField_init name codec description required heavy)
  = str_truthy (get_codec_name codec) && name_re_match name.
Proof.
  intros name codec description required heavy.
  unfold ObjectField_init, SchemaField_init.
  destruct (str_truthy (get_codec_name codec)); simpl; [|reflexivity].
  now destruct (name_re_match name).
Qed.

(** C1 (amended).  For a name that is not a name of the grammar followed by
    a line feed: a scalar constructor succeeds exactly when the name is in
    the grammar; [RecordField] succeeds exactly when the name is in the
    grammar and the record is top-level or has no heavy-pointer child;
    [ArrayField] succeeds exactly when the name of its element is in the
    grammar; [ObjectField] succeeds exactly when the name is in the grammar
    and the codec name is not empty.  So a name outside the grammar makes
    every constructor fail. *)
Theorem name_grammar_construction :
  forall (name description : string) (required : bool) (tags : dict string),
    (forall w, name_grammar w = true -> name <> w ++ String LF "") ->
    (forall cls : Base -> SchemaField Codec,
        succeeds (scalar_init cls name description required tags)
        = name_grammar name)
    /\ (forall (fields : list (SchemaField Codec)) top_level,
        succeeds (RecordField_init name fields description required tags top_level)
        = name_grammar name
          && (top_level || negb (existsb is_heavy_pointer fields)))
    /\ (forall (element_field : SchemaField Codec),
        base_name (base element_field) = name ->
        succeeds (ArrayField_init element_field required) = name_grammar name)
    /\ (forall (codec : Codec) heavy,
        succeeds (ObjectField_init name codec description required heavy)
        = name_grammar name && str_truthy (get_codec_name codec)).
Proof.
  intros name description required tags Hlf.
  pose proof (name_re_match_no_lf name Hlf) as Hm.
  repeat split.
  - intro cls. now rewrite scalar_init_succeeds.
  - intros fields top_level. now rewrite RecordField_init_succeeds, Hm.
  - intros e He. rewrite ArrayField_init_succeeds.
    change (name_re_match (base_name (base e)) = name_grammar name).
    rewrite He. exact Hm.
  - intros codec heavy. rewrite ObjectField_init_succeeds, Hm. apply andb_comm.
Qed.

(** ** The shape of [DatasetSchema.__init__] *)

Lemma DatasetSchema_init_unfold :
  forall (fields : list (SchemaField Codec)) primary_keys allow,
  DatasetSchema_init json_dumps fields primary_keys allow
  = if negb allow && match primary_keys with [] => true | _ => false end
    then Raise (WickerSchemaException EMPTY_KEYS_ERROR)
    else _ <- check_keys (columns_of fields) primary_keys ;;
         Ok (built_schema json_dumps fields primary_keys).
Proof.
  intros fields primary_keys allow.
  unfold DatasetSchema_init, RecordField_init, SchemaField_init, _validate_schema.
  simpl. destruct primary_keys, allow; reflexivity.
Qed.

Lemma check_key_only_raises : forall (columns : dict (SchemaField Codec)) key,
  only_raises (fun e => exists msg, e = WickerSchemaException msg)
    (check_key columns key).
Proof.
  intros columns key. unfold check_key.
  destruct (dict_get columns key) as [field|]; [|simpl; eauto].
  destruct (negb (required field)); [simpl; eauto|].
  destruct (negb (existsb (isinstance field) supported_types));
    simpl; [eauto | exact I].
Qed.

Lemma check_keys_only_raises : forall (columns : dict (SchemaField Codec)) keys,
  only_raises (fun e => exists msg, e = WickerSchemaException msg)
    (check_keys columns keys).
Proof.
  intros columns keys. induction keys as [|key rest IH]; simpl; [exact I|].
  pose proof (check_key_only_raises columns key) as Hk.
  destruct (check_key columns key); simpl; assumption.
Qed.

(** What a constructor can raise at all: the name error as a [ValueError],
    and its own errors as [WickerSchemaException]. *)
Lemma constructors_raise_at_most :
  (forall (cls : Base -> SchemaField Codec) name description required tags,
      only_raises (fun e => e = ValueError NAME_ERROR)
        (scalar_init cls name description required tags))
  /\ (forall (element_field : SchemaField Codec) required,
      only_raises (fun e => e = ValueError NAME_ERROR)
        (ArrayField_init element_field required))
  /\ (forall name (fields : list (SchemaField Codec)) description required tags top_level,
      only_raises
        (fun e => e = ValueError NAME_ERROR
                  \/ e = WickerSchemaException (HEAVY_ERROR (heavy_names fields)))
        (RecordField_init name fields description required tags top_level))
  /\ (forall name (codec : Codec) description required heavy,
      only_raises
        (fun e => e = ValueError NAME_ERROR
                  \/ e = WickerSchemaException CODEC_ERROR)
        (ObjectField_init name codec description required heavy))
  /\ (forall (fields : list (SchemaField Codec)) primary_keys allow,
      only_raises (fun e => exists msg, e = WickerSchemaException msg)
        (DatasetSchema_init json_dumps fields primary_keys allow)).
Proof.
  repeat split.
  - intros cls name description required tags.
    unfold scalar_init, SchemaField_init.
    now destruct (name_re_match name).
  - intros element_field required. unfold ArrayField_init, SchemaField_init.
    now destruct (name_re_match _).
  - intros name fields description required tags top_level.
    unfold RecordField_init, SchemaField_init.
    destruct (name_re_match name); simpl; [|now left].
    destruct (negb top_level && existsb is_heavy_pointer fields); simpl;
      [now right | exact I].
  - intros name codec description required heavy.
    unfold ObjectField_init, SchemaField_init.
    destruct (str_truthy (get_codec_name codec)); simpl; [|now right].
    destruct (name_re_match name); simpl; [exact I | now left].
  - intros fields primary_keys allow.
    rewrite DatasetSchema_init_unfold.
    destruct (negb allow && _); simpl; [eauto|].
    pose proof (check_keys_only_raises (columns_of fields) primary_keys) as Hk.
    destruct (check_keys (columns_of fields) primary_keys); simpl; assumption.
Qed.

(** ** Text of the heavy-pointer message *)

Lemma append_assoc : forall a b c : string, (a ++ b) ++ c = a ++ (b ++ c).
Proof.
  induction a as [|x a IH]; intros b c; simpl; [reflexivity|].
  now rewrite IH.
Qed.

Lemma prefix_app : forall x post, String.prefix x (x ++ post) = true.
Proof.
  induction x as [|c x IH]; intro post; simpl.
  - now destruct post.
  - destruct (ascii_dec c c) as [_|Hc]; [apply IH | now elim Hc].
Qed.

Lemma prefix_contains : forall x s,
  String.prefix x s = true -> str_contains x s = true.
Proof.
  intros x s H. destruct s; cbn [str_contains]; rewrite H; reflexivity.
Qed.

Lemma str_contains_app : forall x pre post,
  str_contains x (pre ++ x ++ post) = true.
Proof.
  intros x pre post. induction pre as [|c pre IH].
  - change ("" ++ x ++ post) with (x ++ post).
    apply prefix_contains, prefix_app.
  - change (String c pre ++ x ++ post) with (String c (pre ++ x ++ post)).
    cbn [str_contains]. rewrite IH. apply orb_true_r.
Qed.

Lemma concat_In : forall sep x l,
  In x l -> exists pre post, String.concat sep l = pre ++ x ++ post.
Proof.
  intros sep x l. induction l as [|y rest IH]; intro Hin; [contradiction|].
  destruct rest as [|z rest].
  - destruct Hin as [->|[]]. exists "", "". simpl.
    induction x as [|c x IHx]; simpl; [reflexivity | now rewrite <- IHx].
  - destruct Hin as [->|Hin].
    + exists "", (sep ++ String.concat sep (z :: rest)). reflexivity.
    + destruct (IH Hin) as [pre [post Heq]].
      exists (y ++ sep ++ pre), post.
      change (String.concat sep (y :: z :: rest))
        with (y ++ sep ++ String.concat sep (z :: rest)).
      rewrite Heq. now rewrite !append_assoc.
Qed.

Lemma HEAVY_ERROR_lists : forall n names,
  In n names -> str_contains (py_repr n) (HEAVY_ERROR names) = true.
Proof.
  intros n names Hin.
  destruct (concat_In ", " (py_repr n) (map py_repr names)) as [pre [post Heq]].
  { now apply in_map. }
  assert (E : HEAVY_ERROR names
              = ("Heavy pointer fields cannot be nested in a RecordField: "
                 ++ "[" ++ pre) ++ py_repr n ++ (post ++ "]")).
  { unfold HEAVY_ERROR, py_repr_list. rewrite Heq.
    now rewrite !append_assoc. }
  rewrite E. apply str_contains_app.
Qed.

Lemma heavy_names_In : forall (fields : list (SchemaField Codec)) n,
  In n (heavy_names fields) <->
  exists f, In f fields /\ is_heavy_pointer f = true /\ name f = n.
Proof.
  intros fields n. unfold heavy_names. rewrite in_map_iff. split.
  - intros [f [Hn Hf]]. apply filter_In in Hf as [Hf Hh]. eauto.
  - intros [f [Hf [Hh Hn]]]. exists f. split; [assumption|].
    apply filter_In. now split.
Qed.

(** C3 (amended).  A record that is not top-level, whose name passes the
    name check and which has a heavy-pointer child, is refused with a
    [WickerSchemaException] whose message is the fixed text followed by the
    list of the names of all heavy-pointer children, in their order: each of
    these names is printed in the message.  A top-level record with any
    children is built as soon as its name passes the check. *)
Theorem heavy_pointer_nesting :
  forall (record_name : string) (fields : list (SchemaField Codec))
         (description : string) (required : bool) (tags : dict string),
    name_re_match record_name = true ->
    (existsb is_heavy_pointer fields = true ->
       RecordField_init record_name fields description required tags false
       = Raise (WickerSchemaException (HEAVY_ERROR (heavy_names fields)))
       /\ (forall f, In f fields -> is_heavy_pointer f = true ->
             In (name f) (heavy_names fields)
             /\ str_contains (py_repr (name f))
                  (HEAVY_ERROR (heavy_names fields)) = true)
       /\ (forall n, In n (heavy_names fields) ->
             exists f, In f fields /\ is_heavy_pointer f = true
                       /\ name f = n))
    /\ RecordField_init record_name fields description required tags true
       = Ok (RecordField
               {| base_name := record_name;
                  base_description := description;
                  base_required := required;
                  base_custom_field_tags := tags |} fields).
Proof.
  intros record_name fields description required tags Hname. split.
  - intro Hheavy. repeat split.
    + unfold RecordField_init, SchemaField_init.
      rewrite Hname, Hheavy. reflexivity.
    + apply heavy_names_In. eauto.
    + apply HEAVY_ERROR_lists. apply heavy_names_In. eauto.
    + intros n Hn. now apply heavy_names_In.
  - unfold RecordField_init, SchemaField_init. rewrite Hname. reflexivity.
Qed.

(** C8 (amended).  [ObjectField] construction fails exactly when the codec
    name is empty or the field name fails the name check; a built object
    carries exactly the three tags [_l5ml_metatype], [_codec_params] and
    [_codec_name], with the marker, the serialized parameters and the name
    of the codec. *)
Theorem object_field_construction :
  forall (field_name : string) (codec : Codec) (description : string)
         (is_required heavy : bool),
    (raises (ObjectField_init field_name codec description is_required heavy) = true
     <-> get_codec_name codec = "" \/ name_re_match field_name = false)
    /\ (forall f,
          ObjectField_init field_name codec description is_required heavy = Ok f ->
          custom_field_tags f
          = [("_l5ml_metatype", "object");
             ("_codec_params", codec_params_json codec);
             ("_codec_name", get_codec_name codec)]
          /\ name f = field_name
          /\ is_heavy_pointer f = heavy).
Proof.
  intros field_name codec description is_required heavy. split.
  - unfold raises. rewrite ObjectField_init_succeeds.
    destruct (get_codec_name codec) eqn:Hc; simpl.
    + split; [now left | reflexivity].
    + destruct (name_re_match field_name); simpl; split; intro H;
        try discriminate; try reflexivity; try (now right).
      destruct H as [H|H]; discriminate.
  - intros f Hf. unfold ObjectField_init, SchemaField_init in Hf.
    destruct (str_truthy (get_codec_name codec)); simpl in Hf; [|discriminate].
    destruct (name_re_match field_name); simpl in Hf; [|discriminate].
    injection Hf as <-. repeat split.
Qed.

(** ** Primary keys *)

Lemma check_key_Ok_iff : forall (columns : dict (SchemaField Codec)) key,
  check_key columns key = Ok tt <-> key_passes columns key.
Proof.
  intros columns key. unfold check_key, key_passes.
  destruct (dict_get columns key) as [field|].
  - destruct (required field) eqn:Hr; simpl.
    + destruct field; simpl; split; intro H;
        try discriminate; try reflexivity;
        try (eexists; repeat split; [exact Hr | simpl; tauto]);
        destruct H as [g [Hg [_ Hin]]]; injection Hg as <-;
        simpl in Hin; intuition discriminate.
    + split; [discriminate|].
      intros [g [Hg [Hreq _]]]. injection Hg as <-. congruence.
  - split; [discriminate|]. intros [g [Hg _]]. discriminate.
Qed.

Lemma check_keys_Ok_iff : forall (columns : dict (SchemaField Codec)) keys,
  check_keys columns keys = Ok tt <-> Forall (key_passes columns) keys.
Proof.
  intros columns keys. induction keys as [|key rest IH]; simpl.
  - split; [constructor | reflexivity].
  - split.
    + intro H. destruct (check_key columns key) as [[]|e] eqn:Hk;
        [|discriminate]. simpl in H.
      constructor; [now apply check_key_Ok_iff | now apply IH].
    + intro H. inversion H as [|? ? Hk Hrest]; subst.
      apply check_key_Ok_iff in Hk. rewrite Hk. simpl. now apply IH.
Qed.

Lemma check_keys_app_good : forall (columns : dict (SchemaField Codec)) good keys,
  Forall (key_passes columns) good ->
  check_keys columns (good ++ keys) = check_keys columns keys.
Proof.
  intros columns good keys Hgood. induction Hgood as [|k good Hk _ IH]; simpl.
  - reflexivity.
  - apply check_key_Ok_iff in Hk. rewrite Hk. simpl. exact IH.
Qed.

Lemma DatasetSchema_init_succeeds_iff :
  forall (fields : list (SchemaField Codec)) primary_keys allow,
  succeeds (DatasetSchema_init json_dumps fields primary_keys allow) = true
  <-> (allow = true \/ primary_keys <> [])
      /\ Forall (key_passes (columns_of fields)) primary_keys.
Proof.
  intros fields primary_keys allow. rewrite DatasetSchema_init_unfold.
  rewrite <- check_keys_Ok_iff.
  destruct allow, primary_keys as [|key rest]; simpl.
  - split; [intros _; split; [now left | reflexivity] | reflexivity].
  - destruct (_ <- check_key (columns_of fields) key;; check_keys (columns_of fields) rest)
      as [[]|e]; simpl.
    + split; [intros _; split; [now left | reflexivity] | reflexivity].
    + split; [discriminate | intros [_ H]; discriminate].
  - split; [discriminate|]. intros [[H|H] _]; [discriminate | now elim H].
  - destruct (_ <- check_key (columns_of fields) key;; check_keys (columns_of fields) rest)
      as [[]|e]; simpl.
    + split; [intros _; split; [right; discriminate | reflexivity] | reflexivity].
    + split; [discriminate | intros [_ H]; discriminate].
Qed.

Lemma DatasetSchema_init_Ok :
  forall (fields : list (SchemaField Codec)) primary_keys allow s,
  DatasetSchema_init json_dumps fields primary_keys allow = Ok s ->
  s = built_schema json_dumps fields primary_keys.
Proof.
  intros fields primary_keys allow s. rewrite DatasetSchema_init_unfold.
  destruct (negb allow && _); [discriminate|].
  destruct (check_keys (columns_of fields) primary_keys); simpl;
    [|discriminate].
  now intros [= <-].
Qed.

(** C4 (amended).  Construction succeeds exactly when the list of primary
    keys is not empty (or the escape flag is set) and every primary key names
    an existing column whose field is required and is an int, long, string or
    bool field.  So it fails as soon as one key names no column, a column
    that is not required, or a column of another class, float and double
    among them. *)
Theorem primary_key_validation :
  forall (fields : list (SchemaField Codec)) (primary_keys : list string)
         (allow : bool),
    (succeeds (DatasetSchema_init json_dumps fields primary_keys allow) = true
     <-> (allow = true \/ primary_keys <> [])
         /\ Forall (fun key =>
                      exists field,
                        get_column (built_schema json_dumps fields primary_keys) key
                        = Some field
                        /\ required field = true
                        /\ In (type_of field)
                              [IntFieldT; LongFieldT; StringFieldT; BoolFieldT])
                   primary_keys)
    /\ (forall key, In key primary_keys ->
          get_column (built_schema json_dumps fields primary_keys) key = None ->
          raises (DatasetSchema_init json_dumps fields primary_keys allow) = true)
    /\ (forall key field, In key primary_keys ->
          get_column (built_schema json_dumps fields primary_keys) key = Some field ->
          required field = false
          \/ In (type_of field)
                [FloatFieldT; DoubleFieldT; RecordFieldT; ArrayFieldT; ObjectFieldT] ->
          raises (DatasetSchema_init json_dumps fields primary_keys allow) = true).
Proof.
  intros fields primary_keys allow.
  pose proof (DatasetSchema_init_succeeds_iff fields primary_keys allow) as Hiff.
  split; [exact Hiff|].
  assert (Hfail : forall key, In key primary_keys ->
                    ~ key_passes (columns_of fields) key ->
                    raises (DatasetSchema_init json_dumps fields primary_keys allow) = true).
  { intros key Hin Hbad. unfold raises.
    apply negb_true_iff, not_true_is_false. intro Hs.
    apply Hiff in Hs as [_ Hall].
    rewrite Forall_forall in Hall. elim Hbad. now apply Hall. }
  split.
  - intros key Hin Hnone. apply (Hfail key Hin).
    intros [field [Hget _]]. unfold get_column in Hnone. simpl in Hnone.
    congruence.
  - intros key field Hin Hget Hbad. apply (Hfail key Hin).
    intros [g [Hg [Hreq Hty]]]. unfold get_column in Hget. simpl in Hget.
    rewrite Hget in Hg. injection Hg as <-.
    destruct Hbad as [Hbad|Hbad]; [congruence|].
    destruct field; simpl in Hbad, Hty; intuition discriminate.
Qed.

(** C5 (amended).  The emptiness check comes first; then the keys are
    checked one after the other, and for each key existence is checked before
    requiredness and requiredness before the type.  The first check that
    fails gives the one error of the construction: whatever the later keys
    are, and whatever later checks the failing key would fail too. *)
Theorem primary_key_check_order :
  forall (fields : list (SchemaField Codec)) (good : list string)
         (key : string) (rest : list string) (allow : bool),
    Forall (key_passes (columns_of fields)) good ->
    DatasetSchema_init json_dumps fields [] false
    = Raise (WickerSchemaException EMPTY_KEYS_ERROR)
    /\ (dict_get (columns_of fields) key = None ->
        DatasetSchema_init json_dumps fields (good ++ key :: rest) allow
        = Raise (WickerSchemaException (KEY_NOT_FOUND_ERROR key)))
    /\ (forall field,
          dict_get (columns_of fields) key = Some field ->
          required field = false ->
          DatasetSchema_init json_dumps fields (good ++ key :: rest) allow
          = Raise (WickerSchemaException (KEY_NOT_REQUIRED_ERROR key)))
    /\ (forall field,
          dict_get (columns_of fields) key = Some field ->
          required field = true ->
          ~ In (type_of field) [IntFieldT; LongFieldT; StringFieldT; BoolFieldT] ->
          DatasetSchema_init json_dumps fields (good ++ key :: rest) allow
          = Raise (WickerSchemaException (KEY_TYPE_ERROR key))).
Proof.
  intros fields good key rest allow Hgood.
  assert (Hshape : forall e,
             check_key (columns_of fields) key = Raise e ->
             DatasetSchema_init json_dumps fields (good ++ key :: rest) allow
             = Raise e).
  { intros e He. rewrite DatasetSchema_init_unfold.
    replace (match (good ++ key :: rest)%list with [] => true | _ :: _ => false end)
      with false by (now destruct good).
    rewrite andb_false_r, (check_keys_app_good _ _ _ Hgood).
    simpl. rewrite He. reflexivity. }
  split; [now rewrite DatasetSchema_init_unfold|].
  repeat split.
  - intro Hnone. apply Hshape. unfold check_key. now rewrite Hnone.
  - intros field Hget Hreq. apply Hshape. unfold check_key.
    now rewrite Hget, Hreq.
  - intros field Hget Hreq Hty. apply Hshape. unfold check_key.
    rewrite Hget, Hreq. simpl negb at 1. cbv iota.
    destruct field; simpl in Hty |- *; try reflexivity; tauto.
Qed.

(** C6.  With an empty list of primary keys, construction fails when the
    escape flag is unset and succeeds when it is set, whatever the fields
    are. *)
Theorem empty_primary_keys :
  forall (fields : list (SchemaField Codec)),
    DatasetSchema_init json_dumps fields [] false
    = Raise (WickerSchemaException EMPTY_KEYS_ERROR)
    /\ DatasetSchema_init json_dumps fields [] true
       = Ok (built_schema json_dumps fields []).
Proof.
  intro fields. now rewrite !DatasetSchema_init_unfold.
Qed.

(** ** The column index *)

Lemma dict_get_set : forall (V : Type) (d : dict V) k v k',
  dict_get (dict_set d k v) k'
  = if String.eqb k k' then Some v else dict_get d k'.
Proof.
  intros V d k v k'. induction d as [|[k0 v0] d IH]; simpl; [reflexivity|].
  destruct (String.eqb k0 k) eqn:E; simpl.
  - apply String.eqb_eq in E. subst k0. now destruct (String.eqb k k').
  - destruct (String.eqb k0 k') eqn:E2.
    + apply String.eqb_eq in E2. subst k0.
      rewrite String.eqb_sym in E. now rewrite E.
    + exact IH.
Qed.

Lemma dict_contains_In : forall (V : Type) (d : dict V) k,
  dict_contains d k = true <-> In k (dict_keys d).
Proof.
  intros V d k. unfold dict_contains.
  induction d as [|[k0 v0] d IH]; simpl.
  - split; [discriminate | contradiction].
  - destruct (String.eqb k0 k) eqn:E.
    + apply String.eqb_eq in E. split; [now left | reflexivity].
    + apply String.eqb_neq in E. rewrite IH. split; [now right|].
      intros [H|H]; [contradiction | assumption].
Qed.

Lemma dict_get_None : forall (V : Type) (d : dict V) k,
  dict_get d k = None <-> ~ In k (dict_keys d).
Proof.
  intros V d k. rewrite <- dict_contains_In. unfold dict_contains.
  destruct (dict_get d k); split; intro H; try discriminate; try reflexivity.
  now elim H.
Qed.

Lemma dict_set_fresh : forall (V : Type) (d : dict V) k v,
  ~ In k (dict_keys d) -> dict_set d k v = (d ++ [(k, v)])%list.
Proof.
  intros V d k v. induction d as [|[k0 v0] d IH]; simpl; intro H;
    [reflexivity|].
  destruct (String.eqb k0 k) eqn:E.
  - apply String.eqb_eq in E. elim H. now left.
  - rewrite IH; [reflexivity|]. intro Hin. apply H. now right.
Qed.

Lemma dict_set_present : forall (V : Type) (d : dict V) k v,
  In k (dict_keys d) -> dict_keys (dict_set d k v) = dict_keys d.
Proof.
  intros V d k v. unfold dict_keys.
  induction d as [|[k0 v0] d IH]; simpl; intro H; [contradiction|].
  destruct (String.eqb k0 k) eqn:E; simpl; [reflexivity|].
  apply String.eqb_neq in E. destruct H as [H|H]; [contradiction|].
  now rewrite IH.
Qed.

Lemma dict_NoDup_In_get : forall (V : Type) (d : dict V) k v,
  NoDup (dict_keys d) -> (In (k, v) d <-> dict_get d k = Some v).
Proof.
  intros V d k v. induction d as [|[k0 v0] d IH]; simpl; intro Hnd.
  - split; [contradiction | discriminate].
  - inversion Hnd as [|? ? Hnot Hnd']; subst.
    destruct (String.eqb k0 k) eqn:E.
    + apply String.eqb_eq in E. subst k0. split.
      * intros [H|H]; [now injection H as -> |].
        elim Hnot. change k with (fst (k, v)). now apply in_map.
      * intros [= ->]. now left.
    + apply String.eqb_neq in E. rewrite <- (IH Hnd'). split.
      * intros [H|H]; [injection H as -> ->; contradiction | assumption].
      * now right.
Qed.

Lemma columns_of_snoc : forall (l : list (SchemaField Codec)) f,
  columns_of (l ++ [f]) = dict_set (columns_of l) (name f) f.
Proof.
  intros l f. unfold columns_of. now rewrite fold_left_app.
Qed.

Lemma columns_keys_In : forall (fields : list (SchemaField Codec)) k,
  In k (dict_keys (columns_of fields)) <-> In k (map name fields).
Proof.
  intros fields k. induction fields as [|f l IH] using rev_ind.
  - reflexivity.
  - rewrite columns_of_snoc, map_app, in_app_iff. simpl.
    destruct (in_dec string_dec (name f) (dict_keys (columns_of l))) as [Hin|Hout].
    + rewrite (dict_set_present _ _ _ _ Hin), IH. split; [now left|].
      intros [H|[H|[]]]; [assumption|]. subst k. now apply IH.
    + rewrite (dict_set_fresh _ _ _ _ Hout).
      unfold dict_keys. rewrite map_app, in_app_iff. simpl.
      unfold dict_keys in IH. now rewrite IH.
Qed.

Lemma columns_keys_NoDup : forall (fields : list (SchemaField Codec)),
  NoDup (dict_keys (columns_of fields)).
Proof.
  intro fields. induction fields as [|f l IH] using rev_ind.
  - constructor.
  - rewrite columns_of_snoc.
    destruct (in_dec string_dec (name f) (dict_keys (columns_of l))) as [Hin|Hout].
    + now rewrite (dict_set_present _ _ _ _ Hin).
    + rewrite (dict_set_fresh _ _ _ _ Hout).
      unfold dict_keys. rewrite map_app. simpl.
      rewrite <- (rev_involutive (map fst (columns_of l) ++ [name f])).
      apply NoDup_rev. rewrite rev_app_distr. simpl.
      constructor; [rewrite <- in_rev; exact Hout | now apply NoDup_rev].
Qed.

Lemma columns_get_last : forall (fields : list (SchemaField Codec)) k,
  dict_get (columns_of fields) k = last_named fields k.
Proof.
  intros fields k. unfold last_named.
  induction fields as [|f l IH] using rev_ind; [reflexivity|].
  rewrite columns_of_snoc, dict_get_set, rev_app_distr. simpl.
  now rewrite IH.
Qed.

Lemma columns_of_NoDup : forall (fields : list (SchemaField Codec)),
  NoDup (map name fields) ->
  columns_of fields = map (fun f => (name f, f)) fields.
Proof.
  intro fields. induction fields as [|f l IH] using rev_ind; intro Hnd;
    [reflexivity|].
  rewrite map_app in Hnd. simpl in Hnd.
  apply NoDup_remove in Hnd as [Hnd Hout]. rewrite app_nil_r in Hnd, Hout.
  rewrite columns_of_snoc, map_app. simpl.
  rewrite dict_set_fresh; [now rewrite IH|].
  now rewrite columns_keys_In.
Qed.

Lemma filter_items_names :
  forall (P : SchemaField Codec -> bool) (l : list (SchemaField Codec)),
  map fst (filter (fun item => P (snd item)) (map (fun f => (name f, f)) l))
  = map name (filter P l).
Proof.
  intros P l. induction l as [|f l IH]; simpl; [reflexivity|].
  destruct (P f); simpl; now rewrite IH.
Qed.

Lemma filter_items_In :
  forall (P : SchemaField Codec -> bool) (d : dict (SchemaField Codec)) n,
  NoDup (dict_keys d) ->
  (In n (map fst (filter (fun item => P (snd item)) d))
   <-> exists f, dict_get d n = Some f /\ P f = true).
Proof.
  intros P d n Hnd. rewrite in_map_iff. split.
  - intros [[k f] [Hk Hin]]. simpl in Hk. subst k.
    apply filter_In in Hin as [Hin HP]. exists f. split; [|exact HP].
    now apply dict_NoDup_In_get.
  - intros [f [Hget HP]]. exists (n, f). split; [reflexivity|].
    apply filter_In. split; [|exact HP]. now apply dict_NoDup_In_get.
Qed.

Lemma find_all_false : forall (A : Type) (p : A -> bool) (l : list A),
  (forall x, In x l -> p x = false) -> find p l = None.
Proof.
  intros A p l H. induction l as [|a l IH]; simpl; [reflexivity|].
  rewrite (H a) by now left. apply IH. intros x Hx. apply H. now right.
Qed.

Lemma find_app_none : forall (A : Type) (p : A -> bool) (a b : list A),
  find p a = None -> find p (a ++ b) = find p b.
Proof.
  intros A p a b. induction a as [|x a IH]; simpl; [reflexivity|].
  destruct (p x); [discriminate | exact IH].
Qed.

Lemma last_named_later : forall (before : list (SchemaField Codec)) f after,
  ~ In (name f) (map name after) ->
  last_named (before ++ f :: after) (name f) = Some f.
Proof.
  intros before f after Hout. unfold last_named.
  rewrite rev_app_distr. simpl. rewrite <- app_assoc.
  rewrite find_app_none.
  - simpl. now rewrite String.eqb_refl.
  - apply find_all_false. intros x Hx. apply in_rev in Hx.
    apply String.eqb_neq. intro Heq. apply Hout. rewrite <- Heq.
    now apply in_map.
Qed.

Lemma NoDup_count_occ_one : forall (l : list string) x,
  NoDup l -> In x l -> count_occ string_dec l x = 1.
Proof.
  intros l x Hnd Hin.
  apply (proj1 (NoDup_count_occ string_dec l)) with (x := x) in Hnd.
  apply (count_occ_In string_dec) in Hin. lia.
Qed.

(** C9 (amended).  In a constructed schema a name is a pointer column
    exactly when its column, the last top-level field of that name, is a
    heavy pointer, and the non-pointer columns are the other column names.
    When the top-level names are pairwise different, the pointer columns are
    the names of the heavy-pointer top-level fields, in their order, and the
    non-pointer columns the names of the others.  For [Long id], [String
    label], [Float score] (all required) and the primary key [id],
    construction succeeds, there is no pointer column, and the non-pointer
    columns are [id], [label], [score]. *)
Theorem pointer_columns :
  (forall (fields : list (SchemaField Codec)) (primary_keys : list string)
          (allow : bool) (s : DatasetSchema Codec),
      DatasetSchema_init json_dumps fields primary_keys allow = Ok s ->
      (forall n, In n (get_pointer_columns s)
                 <-> exists f, get_column s n = Some f
                               /\ is_heavy_pointer f = true)
      /\ (forall n, In n (get_non_pointer_columns s)
                    <-> In n (get_all_column_names s)
                        /\ ~ In n (get_pointer_columns s))
      /\ (NoDup (map name fields) ->
          get_pointer_columns s = map name (filter is_heavy_pointer fields)
          /\ get_non_pointer_columns s
             = map name (filter (fun f => negb (is_heavy_pointer f)) fields)))
  /\ (exists (id label score : SchemaField Codec) (s : DatasetSchema Codec),
        LongField_init "id" "" true [] = Ok id
        /\ StringField_init "label" "" true [] = Ok label
        /\ FloatField_init "score" "" true [] = Ok score
        /\ DatasetSchema_init json_dumps [id; label; score] ["id"] false = Ok s
        /\ get_pointer_columns s = []
        /\ get_non_pointer_columns s = ["id"; "label"; "score"]).
Proof.
  split.
  - intros fields primary_keys allow s Hs.
    apply DatasetSchema_init_Ok in Hs. subst s.
    unfold get_pointer_columns, get_non_pointer_columns, get_column,
      get_all_column_names, dict_items. simpl.
    pose proof (columns_keys_NoDup fields) as Hnd.
    assert (Hptr : forall n,
               In n (map fst (filter (fun item => is_heavy_pointer (snd item))
                                     (columns_of fields)))
               <-> exists f, dict_get (columns_of fields) n = Some f
                             /\ is_heavy_pointer f = true).
    { intro n. now apply (filter_items_In is_heavy_pointer). }
    repeat split.
    + apply Hptr.
    + apply Hptr.
    + apply (filter_items_In (fun f => negb (is_heavy_pointer f))) in H;
        [|exact Hnd].
      destruct H as [f [Hget _]]. apply dict_contains_In.
      unfold dict_contains. now rewrite Hget.
    + intro Hin. apply Hptr in Hin as [f [Hget Hh]].
      apply (filter_items_In (fun f => negb (is_heavy_pointer f))) in H;
        [|exact Hnd].
      destruct H as [g [Hg Hng]]. rewrite Hget in Hg. injection Hg as <-.
      rewrite Hh in Hng. discriminate.
    + intros [Hin Hnot].
      apply (filter_items_In (fun f => negb (is_heavy_pointer f)));
        [exact Hnd|].
      apply dict_contains_In in Hin. unfold dict_contains in Hin.
      destruct (dict_get (columns_of fields) n) as [f|] eqn:Hget;
        [|discriminate].
      exists f. split; [reflexivity|].
      destruct (is_heavy_pointer f) eqn:Hh; [|reflexivity].
      elim Hnot. apply Hptr. eauto.
    + rewrite (columns_of_NoDup _ H).
      apply (filter_items_names is_heavy_pointer).
    + rewrite (columns_of_NoDup _ H).
      apply (filter_items_names (fun f => negb (is_heavy_pointer f))).
  - do 4 eexists. repeat split.
Qed.

(** C10.  Top-level names are not checked for uniqueness: a field list
    with two fields of one name, and primary keys that are valid for the
    columns, is accepted; the name is listed once among the column names;
    [get_column] gives the later of the two fields (no still later field
    has the name); and [get_column] gives [None] for a name that no
    top-level field has. *)
Theorem duplicate_column_names :
  forall (fields before : list (SchemaField Codec)) (first : SchemaField Codec)
         (between : list (SchemaField Codec)) (later : SchemaField Codec)
         (after : list (SchemaField Codec))
         (primary_keys : list string) (allow : bool),
    fields = (before ++ first :: between ++ later :: after)%list ->
    name first = name later ->
    ~ In (name later) (map name after) ->
    allow = true \/ primary_keys <> [] ->
    Forall (fun key =>
              exists field,
                last_named fields key = Some field
                /\ required field = true
                /\ In (type_of field)
                      [IntFieldT; LongFieldT; StringFieldT; BoolFieldT])
           primary_keys ->
    exists s,
      DatasetSchema_init json_dumps fields primary_keys allow = Ok s
      /\ count_occ string_dec (get_all_column_names s) (name later) = 1
      /\ get_column s (name later) = Some later
      /\ (forall n, ~ In n (map name fields) -> get_column s n = None).
Proof.
  intros fields before first between later after primary_keys allow
    Hfields Hsame Hlast Hkeys Hvalid.
  assert (Hok : succeeds (DatasetSchema_init json_dumps fields primary_keys allow)
                = true).
  { apply DatasetSchema_init_succeeds_iff. split; [exact Hkeys|].
    apply Forall_impl with (2 := Hvalid).
    intros key [field [Hf Hrest]]. exists field.
    now rewrite columns_get_last. }
  destruct (DatasetSchema_init json_dumps fields primary_keys allow)
    as [s|e] eqn:Hs; [|discriminate].
  exists s. split; [reflexivity|].
  apply DatasetSchema_init_Ok in Hs. subst s.
  unfold get_all_column_names, get_column. simpl.
  assert (Hget : dict_get (columns_of fields) (name later) = Some later).
  { rewrite columns_get_last, Hfields.
    change (first :: between ++ later :: after)%list
      with ((first :: between) ++ later :: after)%list.
    rewrite app_assoc. now apply last_named_later. }
  repeat split.
  - apply NoDup_count_occ_one; [apply columns_keys_NoDup|].
    apply dict_contains_In. unfold dict_contains. now rewrite Hget.
  - exact Hget.
  - intros n Hn. apply dict_get_None. now rewrite columns_keys_In.
Qed.

(** ** Equality *)

(** Induction over fields, with the hypothesis for every member of a
    record. *)
Lemma SchemaField_nested_ind (P : SchemaField Codec -> Prop) :
  (forall f,
      match f with
      | RecordField _ _ | ArrayField _ _ => False
      | _ => True
      end -> P f) ->
  (forall b fields, Forall P fields -> P (RecordField b fields)) ->
  (forall b element_field, P element_field -> P (ArrayField b element_field)) ->
  forall f, P f.
Proof.
  intros Hleaf Hrecord Harray. fix IH 1.
  intros [b|b|b|b|b|b|b fields|b element_field|b h c];
    try (apply Hleaf; exact I).
  - apply Hrecord. induction fields as [|f fields IHfields]; constructor.
    + apply IH.
    + exact IHfields.
  - apply Harray, IH.
Qed.

Lemma field_eq_Record : forall b fs (other : SchemaField Codec),
  field_eq (RecordField b fs) other
  = SchemaField_eq (RecordField b fs) other
    && match other with
       | RecordField _ gs => Nat.eqb (length fs) (length gs) && all_zip_eq fs gs
       | _ => false
       end.
Proof. intros b fs other. destruct other; reflexivity. Qed.

Lemma FieldClass_eqb_eq : forall a b, FieldClass_eqb a b = true <-> a = b.
Proof. intros [] []; simpl; split; intro H; congruence. Qed.

Lemma FieldClass_eqb_sym : forall a b, FieldClass_eqb a b = FieldClass_eqb b a.
Proof. intros [] []; reflexivity. Qed.

Lemma SchemaField_eq_iff : forall self other : SchemaField Codec,
  SchemaField_eq self other = true
  <-> type_of self = type_of other
      /\ name self = name other
      /\ description self = description other
      /\ required self = required other.
Proof.
  intros self other. unfold SchemaField_eq, isinstance.
  destruct (FieldClass_eqb (type_of other) (type_of self)) eqn:Ht; simpl.
  - apply FieldClass_eqb_eq in Ht.
    destruct (String.eqb (name self) (name other)) eqn:Hn; simpl.
    + apply String.eqb_eq in Hn.
      destruct (String.eqb (description self) (description other)) eqn:Hd; simpl.
      * apply String.eqb_eq in Hd.
        destruct (Bool.eqb (required self) (required other)) eqn:Hr; simpl.
        -- apply Bool.eqb_prop in Hr. now repeat split.
        -- split; [discriminate|]. intros [_ [_ [_ H]]].
           rewrite H, Bool.eqb_reflx in Hr. discriminate.
      * apply String.eqb_neq in Hd. split; [discriminate|]. tauto.
    + apply String.eqb_neq in Hn. split; [discriminate|]. tauto.
  - split; [discriminate|]. intros [H _].
    rewrite H in Ht. rewrite (proj2 (FieldClass_eqb_eq _ _) eq_refl) in Ht.
    discriminate.
Qed.

Lemma SchemaField_eq_refl : forall f : SchemaField Codec, SchemaField_eq f f = true.
Proof. intro f. apply SchemaField_eq_iff. now repeat split. Qed.

Lemma SchemaField_eq_sym : forall a b : SchemaField Codec,
  SchemaField_eq a b = SchemaField_eq b a.
Proof.
  intros a b. destruct (SchemaField_eq b a) eqn:H.
  - apply SchemaField_eq_iff in H. apply SchemaField_eq_iff. intuition congruence.
  - destruct (SchemaField_eq a b) eqn:H'; [|reflexivity].
    apply SchemaField_eq_iff in H'.
    rewrite (proj2 (SchemaField_eq_iff b a)) in H; [discriminate|].
    intuition congruence.
Qed.

(** In every class, [__eq__] starts with [SchemaField.__eq__]. *)
Lemma field_eq_base : forall a b : SchemaField Codec,
  field_eq a b = true -> SchemaField_eq a b = true.
Proof.
  intros a b H. destruct a; try exact H.
  - rewrite field_eq_Record in H. now apply andb_true_iff in H.
  - simpl in H. now apply andb_true_iff in H.
  - simpl in H. now apply andb_true_iff in H.
Qed.

Lemma field_eq_Array : forall b e b' (e' : SchemaField Codec),
  field_eq (ArrayField b e) (ArrayField b' e')
  = SchemaField_eq (ArrayField b e) (ArrayField b' e') && field_eq e e'.
Proof. reflexivity. Qed.

Lemma field_eq_Object : forall b h (c : Codec) b' h' c',
  field_eq (ObjectField b h c) (ObjectField b' h' c')
  = SchemaField_eq (ObjectField b h c) (ObjectField b' h' c') && codec_eq c c'.
Proof. reflexivity. Qed.

Lemma FieldClass_eq_dec : forall a b : FieldClass, {a = b} + {a <> b}.
Proof. decide equality. Qed.

Lemma field_eq_diff : forall a b : SchemaField Codec,
  type_of a <> type_of b -> field_eq a b = false.
Proof.
  intros a b H. destruct (field_eq a b) eqn:E; [|reflexivity].
  apply field_eq_base, SchemaField_eq_iff in E. tauto.
Qed.

Lemma all_zip_eq_Forall2 : forall fs gs : list (SchemaField Codec),
  Nat.eqb (length fs) (length gs) && all_zip_eq fs gs = true
  <-> Forall2 (fun f g => field_eq f g = true) fs gs.
Proof.
  induction fs as [|f fs IH]; intros [|g gs]; simpl.
  - split; [constructor | reflexivity].
  - split; [discriminate | intro H; inversion H].
  - split; [discriminate | intro H; inversion H].
  - split.
    + intro H. apply andb_true_iff in H as [Hlen H].
      apply andb_true_iff in H as [Hfg Hrest].
      constructor; [exact Hfg|]. apply IH. now rewrite Hlen, Hrest.
    + intro H. inversion H as [|? ? ? ? Hfg Hrest]; subst.
      apply IH in Hrest. apply andb_true_iff in Hrest as [Hlen Hzip].
      now rewrite Hlen, Hfg, Hzip.
Qed.

Lemma all_zip_eq_refl : forall fs : list (SchemaField Codec),
  Forall (fun f => field_eq f f = true) fs -> all_zip_eq fs fs = true.
Proof.
  intros fs H. induction H as [|f fs Hf _ IH]; simpl; [reflexivity|].
  now rewrite Hf, IH.
Qed.

Lemma all_zip_eq_sym : forall fs gs : list (SchemaField Codec),
  Forall (fun f => forall g, field_eq f g = field_eq g f) fs ->
  all_zip_eq fs gs = all_zip_eq gs fs.
Proof.
  intros fs gs H. revert gs.
  induction H as [|f fs Hf _ IH]; intros [|g gs]; simpl; try reflexivity.
  now rewrite Hf, IH.
Qed.

Section Equality.

(** The equality of codecs is the one of [codecs.Codec]; here it is taken to
    be reflexive and symmetric. *)
Hypothesis codec_eq_refl : forall c : Codec, codec_eq c c = true.
Hypothesis codec_eq_sym : forall c d : Codec, codec_eq c d = codec_eq d c.

Lemma field_eq_refl : forall f : SchemaField Codec, field_eq f f = true.
Proof.
  induction f as [f Hleaf|b fields IH|b element_field IH]
    using SchemaField_nested_ind.
  - destruct f; try contradiction; try apply SchemaField_eq_refl.
    simpl. now rewrite SchemaField_eq_refl, codec_eq_refl.
  - rewrite field_eq_Record, SchemaField_eq_refl, Nat.eqb_refl.
    simpl. now apply all_zip_eq_refl.
  - simpl. now rewrite SchemaField_eq_refl, IH.
Qed.

Lemma field_eq_sym : forall a b : SchemaField Codec, field_eq a b = field_eq b a.
Proof.
  induction a as [a Hleaf|b fields IH|b element_field IH]
    using SchemaField_nested_ind; intro other.
  - destruct (FieldClass_eq_dec (type_of a) (type_of other)) as [Ht|Ht];
      [|rewrite !field_eq_diff by congruence; reflexivity].
    destruct a; try contradiction; destruct other; try discriminate Ht;
      try exact (SchemaField_eq_sym _ _).
    rewrite !field_eq_Object.
    f_equal; [apply SchemaField_eq_sym | apply codec_eq_sym].
  - destruct (FieldClass_eq_dec (type_of (RecordField b fields)) (type_of other))
      as [Ht|Ht]; [|rewrite !field_eq_diff by congruence; reflexivity].
    destruct other as [| | | | | |b' gs| |]; try discriminate Ht.
    rewrite !field_eq_Record.
    f_equal; [apply SchemaField_eq_sym|].
    f_equal; [apply Nat.eqb_sym | now apply all_zip_eq_sym].
  - destruct (FieldClass_eq_dec (type_of (ArrayField b element_field)) (type_of other))
      as [Ht|Ht]; [|rewrite !field_eq_diff by congruence; reflexivity].
    destruct other; try discriminate Ht.
    rewrite !field_eq_Array.
    f_equal; [apply SchemaField_eq_sym | apply IH].
Qed.

(** C7.  Equality of fields is a total boolean function (it never raises).
    It is reflexive and symmetric; two fields of different classes are not
    equal; two fields of one class are equal exactly when name, description
    and required agree and, for records, they have the same number of
    members and these are equal pairwise in order, for arrays, the element
    fields are equal, for objects, the codecs are equal.  Two schemas built
    from member-wise equal field lists and the same primary keys are
    equal. *)
Theorem field_equality :
  (forall f : SchemaField Codec, field_eq f f = true)
  /\ (forall a b : SchemaField Codec, field_eq a b = field_eq b a)
  /\ (forall a b : SchemaField Codec,
        type_of a <> type_of b -> field_eq a b = false)
  /\ (forall a b : SchemaField Codec,
        type_of a = type_of b ->
        (field_eq a b = true
         <-> name a = name b
             /\ description a = description b
             /\ required a = required b
             /\ match a, b with
                | RecordField _ fs, RecordField _ gs =>
                    length fs = length gs
                    /\ Forall2 (fun f g => field_eq f g = true) fs gs
                | ArrayField _ e1, ArrayField _ e2 => field_eq e1 e2 = true
                | ObjectField _ _ c1, ObjectField _ _ c2 => codec_eq c1 c2 = true
                | _, _ => True
                end))
  /\ (forall (fields1 fields2 : list (SchemaField Codec)) primary_keys
             allow1 allow2 s1 s2,
        Forall2 (fun f g => field_eq f g = true) fields1 fields2 ->
        DatasetSchema_init json_dumps fields1 primary_keys allow1 = Ok s1 ->
        DatasetSchema_init json_dumps fields2 primary_keys allow2 = Ok s2 ->
        DatasetSchema_eq s1 s2 = true).
Proof.
  split; [exact field_eq_refl|].
  split; [exact field_eq_sym|].
  split; [exact field_eq_diff|].
  split.
  - intros a b Ht.
    assert (Hbase : SchemaField_eq a b = true
                    <-> name a = name b /\ description a = description b
                        /\ required a = required b).
    { rewrite SchemaField_eq_iff. tauto. }
    destruct a; destruct b; try discriminate Ht;
      try (change (field_eq ?x ?y) with (SchemaField_eq x y);
           rewrite Hbase; tauto).
    + rewrite field_eq_Record, andb_true_iff, Hbase, all_zip_eq_Forall2.
      split; [|tauto]. intros [H1 H2]. repeat split; try tauto.
      now apply Forall2_length in H2.
    + rewrite field_eq_Array, andb_true_iff, Hbase. tauto.
    + rewrite field_eq_Object, andb_true_iff, Hbase. tauto.
  - intros fields1 fields2 keys allow1 allow2 s1 s2 Hall H1 H2.
    apply DatasetSchema_init_Ok in H1, H2. subst s1 s2.
    unfold DatasetSchema_eq, built_schema.
    cbn [schema_record primary_keys].
    rewrite field_eq_Record.
    apply andb_true_iff. split.
    + apply andb_true_iff. split; [reflexivity|].
      now apply all_zip_eq_Forall2.
    + clear. induction keys as [|k l IH]; simpl; [reflexivity|].
      now rewrite String.eqb_refl.
Qed.

End Equality.

End SchemaProofs.

(** * Examples on concrete objects *)

(** ** Names *)

(** C1, as stated, fails: the name [nested] is in the grammar, and the
    non-top-level record of that name with the heavy-pointer child [blob] is
    refused. *)
Lemma grammar_name_refused :
  ~ (name_grammar "nested" = true ->
     succeeds (RecordField_init "nested" [blob] "" true [] false) = true).
Proof.
  intro H. specialize (H eq_refl). discriminate H.
Qed.

(** The pattern also lets a name through that ends in a line feed. *)
Lemma name_with_line_feed_accepted :
  name_grammar ("id" ++ String LF "") = false
  /\ IntField_init (Codec := NamedCodec) ("id" ++ String LF "") "" true []
     = Ok (IntField (plain ("id" ++ String LF "") true)).
Proof. split; reflexivity. Qed.

Lemma name_grammar_construction_witness :
  succeeds (scalar_init (@IntField NamedCodec) "id" "" true []) = name_grammar "id"
  /\ succeeds (scalar_init (@IntField NamedCodec) "1d" "" true []) = name_grammar "1d".
Proof.
  split.
  - apply (name_grammar_construction (Codec := NamedCodec) "id" "" true []).
    intros w _ H. destruct w as [|a [|b [|c w]]]; vm_compute in H; discriminate H.
  - apply (name_grammar_construction (Codec := NamedCodec) "1d" "" true []).
    intros w _ H. destruct w as [|a [|b [|c w]]]; vm_compute in H; discriminate H.
Defined.

(** ** Kinds of errors *)

(** C2, as stated, fails: a name starting with an underscore is refused with
    a [ValueError], which is not a [WickerSchemaException]. *)
Lemma bad_name_raises_ValueError :
  IntField_init (Codec := NamedCodec) "_id" "" true [] = Raise (ValueError NAME_ERROR)
  /\ ~ (exists msg,
          IntField_init (Codec := NamedCodec) "_id" "" true []
          = Raise (WickerSchemaException msg)).
Proof.
  split; [reflexivity|]. intros [msg H]. discriminate H.
Qed.

(** Each of the other failures raises a [WickerSchemaException]. *)
Lemma other_failures_raise_WickerSchemaException :
  RecordField_init "nested" [blob] "" true [] false
  = Raise (WickerSchemaException
             "Heavy pointer fields cannot be nested in a RecordField: ['blob']")
  /\ ObjectField_init "blob" unnamed_codec "" true true
     = Raise (WickerSchemaException CODEC_ERROR)
  /\ DatasetSchema_init json_dumps_plain [id_field; label_field; score_field]
       ["score"] false
     = Raise (WickerSchemaException
                "'score' cannot be a primary key because it is not of type int, long, string or bool.").
Proof. repeat split. Qed.

(** ** Heavy pointers in records *)

(** C3, as stated, fails: the non-top-level record named [1st] with the
    heavy-pointer child [blob] is refused for its name, and the message does
    not mention [blob]. *)
Lemma heavy_child_not_listed :
  is_heavy_pointer blob = true
  /\ exists msg,
       RecordField_init "1st" [blob] "" true [] false = Raise (ValueError msg)
       /\ str_contains "blob" msg = false.
Proof.
  split; [reflexivity|]. exists NAME_ERROR. split; reflexivity.
Qed.

Lemma heavy_pointer_nesting_witness :
  RecordField_init "nested" [blob; id_field; data_object] "" true [] false
  = Raise (WickerSchemaException
             "Heavy pointer fields cannot be nested in a RecordField: ['blob', 'data']")
  /\ RecordField_init "fields" [blob; id_field; data_object] "" true [] true
     = Ok (RecordField (plain "fields" true) [blob; id_field; data_object]).
Proof.
  pose proof (heavy_pointer_nesting "nested" [blob; id_field; data_object]
                "" true [] eq_refl) as [Hnested _].
  pose proof (heavy_pointer_nesting "fields" [blob; id_field; data_object]
                "" true [] eq_refl) as [_ Htop].
  split.
  - exact (proj1 (Hnested eq_refl)).
  - exact Htop.
Defined.

(** ** Object fields *)

(** C8, as stated, fails: with the codec name [blob_codec], the object field
    named [_blob] is refused. *)
Lemma object_refused_for_its_name :
  ~ (raises (ObjectField_init "_blob" blob_codec "" true true) = true
     <-> get_codec_name blob_codec = "").
Proof.
  intros [H _]. specialize (H eq_refl). discriminate H.
Qed.

Lemma object_field_construction_witness :
  custom_field_tags blob
  = [("_l5ml_metatype", "object");
     ("_codec_params", "{}");
     ("_codec_name", "blob_codec")]
  /\ name blob = "blob"
  /\ is_heavy_pointer blob = true.
Proof.
  exact (proj2 (object_field_construction "blob" blob_codec "" true true)
               blob eq_refl).
Defined.

(** ** Primary keys *)

(** C4, as stated, fails: with no primary key at all, every primary key is a
    required int, long, string or bool column, and construction fails. *)
Lemma no_key_all_keys_valid :
  Forall (fun key =>
            exists field,
              get_column (built_schema json_dumps_plain [id_field] []) key
              = Some field
              /\ required field = true
              /\ In (type_of field)
                    [IntFieldT; LongFieldT; StringFieldT; BoolFieldT])
         []
  /\ succeeds (DatasetSchema_init json_dumps_plain [id_field] [] false) = false.
Proof. split; [constructor | reflexivity]. Qed.

Lemma primary_key_validation_witness :
  succeeds (DatasetSchema_init json_dumps_plain
              [id_field; label_field; score_field] ["id"; "label"] false) = true
  /\ raises (DatasetSchema_init json_dumps_plain
               [id_field; label_field; score_field] ["id"; "score"] false) = true.
Proof.
  pose proof (primary_key_validation json_dumps_plain
                [id_field; label_field; score_field] ["id"; "label"] false)
    as [Hiff _].
  pose proof (primary_key_validation json_dumps_plain
                [id_field; label_field; score_field] ["id"; "score"] false)
    as [_ [_ Hbad]].
  split.
  - apply Hiff. split; [right; discriminate|].
    repeat constructor.
    + exists id_field. repeat split. simpl. tauto.
    + exists label_field. repeat split. simpl. tauto.
  - apply (Hbad "score" score_field).
    + right. left. reflexivity.
    + reflexivity.
    + right. left. reflexivity.
Defined.

Lemma primary_key_check_order_witness :
  DatasetSchema_init json_dumps_plain [id_field; label_field; optional_score]
    ["id"; "score"; "missing"] false
  = Raise (WickerSchemaException
             "All primary key fields must have the 'required' tag, but 'score' doesn't have it.")
  /\ DatasetSchema_init json_dumps_plain [id_field; label_field; score_field]
       ["id"; "score"; "missing"] false
     = Raise (WickerSchemaException
                "'score' cannot be a primary key because it is not of type int, long, string or bool.")
  /\ DatasetSchema_init json_dumps_plain [id_field; label_field; score_field]
       ["id"; "missing"; "score"] false
     = Raise (WickerSchemaException
                "Primary key 'missing' not found in the schema's fields.").
Proof.
  assert (Hid : forall third,
             In third [optional_score; score_field] ->
             Forall (key_passes (columns_of [id_field; label_field; third])) ["id"]).
  { intros third [<-|[<-|[]]];
      (constructor;
       [exists id_field;
        split; [reflexivity | split; [reflexivity | right; left; reflexivity]]
       | constructor]). }
  pose proof (primary_key_check_order json_dumps_plain
                [id_field; label_field; optional_score] ["id"] "score"
                ["missing"] false (Hid optional_score (or_introl eq_refl)))
    as [_ [_ [Hreq _]]].
  pose proof (primary_key_check_order json_dumps_plain
                [id_field; label_field; score_field] ["id"] "score"
                ["missing"] false (Hid score_field (or_intror (or_introl eq_refl))))
    as [_ [_ [_ Hty]]].
  pose proof (primary_key_check_order json_dumps_plain
                [id_field; label_field; score_field] ["id"] "missing"
                ["score"] false (Hid score_field (or_intror (or_introl eq_refl))))
    as [_ [Hmiss _]].
  split; [|split].
  - exact (Hreq optional_score eq_refl eq_refl).
  - apply (Hty score_field eq_refl eq_refl).
    simpl. intuition discriminate.
  - exact (Hmiss eq_refl).
Defined.

(** ** Equality *)

Lemma field_equality_witness :
  field_eq (RecordField (plain "pair" true) [blob; id_field])
           (RecordField (plain "pair" true) [blob; id_field]) = true
  /\ field_eq id_field label_field = false.
Proof.
  assert (Hrefl : forall c : NamedCodec, codec_eq c c = true).
  { intro c. simpl. now rewrite !String.eqb_refl. }
  assert (Hsym : forall c d : NamedCodec, codec_eq c d = codec_eq d c).
  { intros c d. simpl.
    now rewrite (String.eqb_sym (nc_name c)), (String.eqb_sym (nc_params c)). }
  pose proof (field_equality (Codec := NamedCodec) json_dumps_plain Hrefl Hsym)
    as [Hr [_ [Hdiff _]]].
  split.
  - apply Hr.
  - apply Hdiff. discriminate.
Defined.

(** ** Columns *)

(** C9, as stated, fails: [data_object] is a top-level heavy-pointer field
    of the schema, and its name is not a pointer column but a non-pointer
    column, because the later field [data_int] has the same name. *)
Lemma heavy_field_not_a_pointer_column :
  exists s,
    DatasetSchema_init json_dumps_plain [data_object; data_int] ["data"] false = Ok s
    /\ In data_object [data_object; data_int]
    /\ is_heavy_pointer data_object = true
    /\ ~ In (name data_object) (get_pointer_columns s)
    /\ In (name data_object) (get_non_pointer_columns s).
Proof.
  eexists. split; [reflexivity|].
  split; [now left|]. split; [reflexivity|].
  split; [intros [] | now left].
Qed.

Lemma pointer_columns_witness :
  get_pointer_columns (built_schema json_dumps_plain [blob; id_field; data_object] ["id"])
  = ["blob"; "data"]
  /\ get_non_pointer_columns
       (built_schema json_dumps_plain [blob; id_field; data_object] ["id"])
     = ["id"].
Proof.
  pose proof (proj1 (pointer_columns json_dumps_plain)
                [blob; id_field; data_object] ["id"] false
                (built_schema json_dumps_plain [blob; id_field; data_object] ["id"])
                eq_refl) as [_ [_ Hlists]].
  apply Hlists.
  repeat constructor; simpl; intuition discriminate.
Defined.

Lemma duplicate_column_names_witness :
  exists s,
    DatasetSchema_init json_dumps_plain [data_int; id_field; data_string]
      ["data"; "id"] false = Ok s
    /\ count_occ string_dec (get_all_column_names s) (name data_string) = 1
    /\ get_column s (name data_string) = Some data_string
    /\ (forall n, ~ In n (map name [data_int; id_field; data_string]) ->
                  get_column s n = None).
Proof.
  apply (duplicate_column_names json_dumps_plain
           [data_int; id_field; data_string] [] data_int [id_field]
           data_string [] ["data"; "id"] false).
  - reflexivity.
  - reflexivity.
  - simpl. tauto.
  - right. discriminate.
  - constructor; [|constructor; [|constructor]].
    + exists data_string.
      split; [reflexivity | split; [reflexivity | right; right; left; reflexivity]].
    + exists id_field.
      split; [reflexivity | split; [reflexivity | right; left; reflexivity]].
Defined.

(** * Further properties of the module *)

Section MoreProperties.

Context {Codec : Type} {codec_interface : CodecInterface Codec}.
Variable json_dumps : list string -> string.

(** ** Names *)

Lemma name_re_match_first : forall name,
  name_re_match name = true ->
  exists c rest, name = String c rest /\ class_alpha c = true.
Proof.
  intros [|c rest] H; [discriminate|].
  simpl in H. apply andb_true_iff in H as [Hc _]. now exists c, rest.
Qed.

(** X1.  The name check lets through exactly the names of the grammar and
    the names of the grammar followed by one line feed: a scalar field of a
    given name is built in these cases and in no other. *)
Theorem name_check_accepts :
  forall (cls : Base -> SchemaField Codec) (field_name description : string)
         (required : bool) (tags : dict string),
    succeeds (scalar_init cls field_name description required tags) = true
    <-> name_grammar field_name = true
        \/ exists w, name_grammar w = true /\ field_name = w ++ String LF "".
Proof.
  intros cls field_name description required tags.
  rewrite scalar_init_succeeds. apply name_re_match_iff.
Qed.

(** X2.  Names that start with an underscore are reserved: the name check
    refuses every one of them, so no field that a constructor has built is
    named like one of the synthetic tags [_primary_keys], [_l5ml_metatype],
    [_codec_params], [_codec_name]. *)
Theorem underscore_names_reserved :
  (forall rest, name_re_match (String "_" rest) = false)
  /\ (forall (cls : Base -> SchemaField Codec) field_name description required
             tags f,
        scalar_init cls field_name description required tags = Ok f ->
        In cls scalar_classes ->
        ~ In (name f)
             [PRIMARY_KEYS_TAG; "_l5ml_metatype"; "_codec_params"; "_codec_name"])
  /\ (forall record_name (fields : list (SchemaField Codec)) description
             required tags top_level f,
        RecordField_init record_name fields description required tags top_level
        = Ok f ->
        ~ In (name f)
             [PRIMARY_KEYS_TAG; "_l5ml_metatype"; "_codec_params"; "_codec_name"])
  /\ (forall field_name (codec : Codec) description required heavy f,
        ObjectField_init field_name codec description required heavy = Ok f ->
        ~ In (name f)
             [PRIMARY_KEYS_TAG; "_l5ml_metatype"; "_codec_params"; "_codec_name"]).
Proof.
  assert (Hres : forall n,
             name_re_match n = true ->
             ~ In n [PRIMARY_KEYS_TAG; "_l5ml_metatype"; "_codec_params";
                     "_codec_name"]).
  { intros n Hn Hin. simpl in Hin.
    destruct Hin as [<-|[<-|[<-|[<-|[]]]]]; discriminate Hn. }
  split; [reflexivity|]. split; [|split].
  - intros cls field_name description required tags f Hf Hcls.
    unfold scalar_init, SchemaField_init in Hf.
    destruct (name_re_match field_name) eqn:Hn; simpl in Hf; [|discriminate].
    injection Hf as <-. apply Hres.
    simpl in Hcls.
    destruct Hcls as [<-|[<-|[<-|[<-|[<-|[<-|[]]]]]]]; exact Hn.
  - intros record_name fields description required tags top_level f Hf.
    unfold RecordField_init, SchemaField_init in Hf.
    destruct (name_re_match record_name) eqn:Hn; simpl in Hf; [|discriminate].
    destruct (negb top_level && existsb is_heavy_pointer fields);
      [discriminate|].
    injection Hf as <-. apply Hres. exact Hn.
  - intros field_name codec description required heavy f Hf.
    unfold ObjectField_init, SchemaField_init in Hf.
    destruct (str_truthy (get_codec_name codec)); simpl in Hf; [|discriminate].
    destruct (name_re_match field_name) eqn:Hn; simpl in Hf; [|discriminate].
    injection Hf as <-. apply Hres. exact Hn.
Qed.

(** ** The state the constructors leave a field in *)

Lemma well_formed_name : forall f : SchemaField Codec,
  well_formed f -> name_re_match (name f) = true.
Proof. intros f H. destruct f; exact (proj1 H). Qed.

Lemma well_formed_members : forall (fields : list (SchemaField Codec)),
  Forall well_formed fields ->
  (fix all (l : list (SchemaField Codec)) : Prop :=
     match l with
     | [] => True
     | g :: l' => well_formed g /\ all l'
     end) fields.
Proof.
  intros fields H. induction H as [|g l Hg _ IH]; [exact I | now split].
Qed.

(** X3.  Each constructor returns a well-formed field when the fields it is
    given are well-formed: every node of a tree built with the constructors
    has a name that passes the name check, every array has the name, the
    description and the tags of its element, and every object has a named
    codec and the three tags of its codec. *)
Theorem constructors_keep_well_formed :
  (forall (cls : Base -> SchemaField Codec) field_name description required
          tags f,
      In cls scalar_classes ->
      scalar_init cls field_name description required tags = Ok f ->
      well_formed f)
  /\ (forall record_name (fields : list (SchemaField Codec)) description
             required tags top_level f,
        Forall well_formed fields ->
        RecordField_init record_name fields description required tags top_level
        = Ok f ->
        well_formed f)
  /\ (forall (element_field : SchemaField Codec) required f,
        well_formed element_field ->
        ArrayField_init element_field required = Ok f ->
        well_formed f)
  /\ (forall field_name (codec : Codec) description required heavy f,
        ObjectField_init field_name codec description required heavy = Ok f ->
        well_formed f)
  /\ (forall (fields : list (SchemaField Codec)) primary_keys allow s,
        Forall well_formed fields ->
        DatasetSchema_init json_dumps fields primary_keys allow = Ok s ->
        well_formed (schema_record s)
        /\ forall n f, get_column s n = Some f -> well_formed f).
Proof.
  split; [|split; [|split; [|split]]].
  - intros cls field_name description required tags f Hcls Hf.
    unfold scalar_init, SchemaField_init in Hf.
    destruct (name_re_match field_name) eqn:Hn; simpl in Hf; [|discriminate].
    injection Hf as <-. simpl in Hcls.
    destruct Hcls as [<-|[<-|[<-|[<-|[<-|[<-|[]]]]]]]; split; auto.
  - intros record_name fields description required tags top_level f Hall Hf.
    unfold RecordField_init, SchemaField_init in Hf.
    destruct (name_re_match record_name) eqn:Hn; simpl in Hf; [|discriminate].
    destruct (negb top_level && existsb is_heavy_pointer fields);
      [discriminate|].
    injection Hf as <-. split; [exact Hn|]. now apply well_formed_members.
  - intros element_field required f He Hf.
    unfold ArrayField_init, SchemaField_init in Hf.
    destruct (name_re_match (name element_field)) eqn:Hn; simpl in Hf;
      [|discriminate].
    injection Hf as <-. split; [exact Hn|]. simpl. auto.
  - intros field_name codec description required heavy f Hf.
    unfold ObjectField_init, SchemaField_init in Hf.
    destruct (get_codec_name codec) eqn:Hc; simpl in Hf; [discriminate|].
    destruct (name_re_match field_name) eqn:Hn; simpl in Hf; [|discriminate].
    injection Hf as <-. split; [exact Hn|]. simpl. rewrite Hc.
    split; [discriminate | reflexivity].
  - intros fields primary_keys allow s Hall Hs.
    apply DatasetSchema_init_Ok in Hs. subst s. split.
    + split; [reflexivity|]. now apply well_formed_members.
    + intros n f Hget. unfold get_column in Hget. simpl in Hget.
      rewrite columns_get_last in Hget. unfold last_named in Hget.
      apply find_some in Hget as [Hin _]. apply in_rev in Hin.
      rewrite Forall_forall in Hall. now apply Hall.
Qed.

(** ** Heavy pointers *)

(** X4.  Only an object field can be a heavy pointer, and the check in
    [RecordField] looks at the direct children only.  So a record that is
    not top-level is built whenever its name passes the check and none of
    its direct children is a heavy object; in particular an array field is
    never a heavy pointer, and a heavy object wrapped in an array is accepted
    inside such a record. *)
Theorem heavy_check_direct_children :
  (forall f : SchemaField Codec,
      is_heavy_pointer f = true -> type_of f = ObjectFieldT)
  /\ (forall record_name (fields : list (SchemaField Codec)) description
             required tags,
        name_re_match record_name = true ->
        (forall g, In g fields ->
                   type_of g <> ObjectFieldT \/ is_heavy_pointer g = false) ->
        RecordField_init record_name fields description required tags false
        = Ok (RecordField
                {| base_name := record_name;
                   base_description := description;
                   base_required := required;
                   base_custom_field_tags := tags |} fields))
  /\ (forall (element_field : SchemaField Codec) array_required array
             record_name description required tags,
        ArrayField_init element_field array_required = Ok array ->
        name_re_match record_name = true ->
        is_heavy_pointer array = false
        /\ RecordField_init record_name [array] description required tags false
           = Ok (RecordField
                   {| base_name := record_name;
                      base_description := description;
                      base_required := required;
                      base_custom_field_tags := tags |} [array])).
Proof.
  assert (Hrec : forall record_name (fields : list (SchemaField Codec))
                        description required tags,
             name_re_match record_name = true ->
             (forall g, In g fields -> is_heavy_pointer g = false) ->
             RecordField_init record_name fields description required tags false
             = Ok (RecordField
                     {| base_name := record_name;
                        base_description := description;
                        base_required := required;
                        base_custom_field_tags := tags |} fields)).
  { intros record_name fields description required tags Hn Hall.
    unfold RecordField_init, SchemaField_init. rewrite Hn. simpl.
    replace (existsb is_heavy_pointer fields) with false; [reflexivity|].
    symmetry. apply not_true_is_false. intro Hex.
    apply existsb_exists in Hex as [g [Hin Hg]].
    rewrite (Hall g Hin) in Hg. discriminate. }
  split; [|split].
  - intros f Hf. destruct f; try discriminate Hf. reflexivity.
  - intros record_name fields description required tags Hn Hall.
    apply Hrec; [exact Hn|]. intros g Hin.
    destruct (Hall g Hin) as [Hty|Hh]; [|exact Hh].
    destruct g; try reflexivity. now elim Hty.
  - intros element_field array_required array record_name description
      required tags Ha Hn.
    assert (Hheavy : is_heavy_pointer array = false).
    { unfold ArrayField_init, SchemaField_init in Ha.
      destruct (name_re_match (name element_field)); simpl in Ha;
        [|discriminate].
      now injection Ha as <-. }
    split; [exact Hheavy|].
    apply Hrec; [exact Hn|]. intros g [<-|[]]. exact Hheavy.
Qed.

(** X5.  Wrapping a well-formed field in an array never fails: the array has
    the name, the description and the custom tags of the element, while
    [required] is the array's own. *)
Theorem array_of_well_formed :
  forall (element_field : SchemaField Codec) (array_required : bool),
    well_formed element_field ->
    exists array,
      ArrayField_init element_field array_required = Ok array
      /\ name array = name element_field
      /\ description array = description element_field
      /\ custom_field_tags array = custom_field_tags element_field
      /\ required array = array_required
      /\ well_formed array.
Proof.
  intros element_field array_required He.
  pose proof (well_formed_name _ He) as Hn.
  unfold ArrayField_init, SchemaField_init. rewrite Hn. simpl.
  eexists. split; [reflexivity|]. repeat split; auto.
Qed.

(** ** The column index of a schema *)

Lemma NoDup_map_fst_filter :
  forall (A : Type) (P : string * A -> bool) (d : list (string * A)),
  NoDup (map fst d) -> NoDup (map fst (filter P d)).
Proof.
  intros A P d. induction d as [|[k v] d IH]; simpl; intro H; [constructor|].
  inversion H as [|? ? Hout Hnd]; subst.
  destruct (P (k, v)); simpl; [|now apply IH].
  constructor; [|now apply IH].
  intro Hin. apply Hout. apply in_map_iff in Hin as [[k' v'] [Hk Hin]].
  simpl in Hk. subst k'. apply filter_In in Hin as [Hin _].
  change k with (fst (k, v')). now apply in_map.
Qed.

Lemma filter_split_length : forall (A : Type) (P : A -> bool) (l : list A),
  length (filter P l) + length (filter (fun x => negb (P x)) l) = length l.
Proof.
  intros A P l. induction l as [|x l IH]; simpl; [reflexivity|].
  destruct (P x); simpl; lia.
Qed.

(** X6.  The column index of a constructed schema: the column names have no
    repetition and are exactly the names of the top-level fields; the field
    found under a name is one of the top-level fields and has that name; and
    a name has no column exactly when no top-level field has it. *)
Theorem column_index :
  forall (fields : list (SchemaField Codec)) (primary_keys : list string)
         (allow : bool) (s : DatasetSchema Codec),
    DatasetSchema_init json_dumps fields primary_keys allow = Ok s ->
    NoDup (get_all_column_names s)
    /\ (forall n, In n (get_all_column_names s) <-> In n (map name fields))
    /\ (forall n f, get_column s n = Some f -> In f fields /\ name f = n)
    /\ (forall f, In f fields ->
          exists g, get_column s (name f) = Some g /\ name g = name f)
    /\ (forall n, get_column s n = None <-> ~ In n (map name fields)).
Proof.
  intros fields primary_keys allow s Hs.
  apply DatasetSchema_init_Ok in Hs. subst s.
  unfold get_all_column_names, get_column. simpl.
  assert (Hsome : forall n f,
             dict_get (columns_of fields) n = Some f ->
             In f fields /\ name f = n).
  { intros n f Hget. rewrite columns_get_last in Hget.
    apply find_some in Hget as [Hin Hn]. apply in_rev in Hin.
    now apply String.eqb_eq in Hn. }
  split; [apply columns_keys_NoDup|].
  split; [apply columns_keys_In|].
  split; [exact Hsome|]. split.
  - intros f Hin.
    destruct (dict_get (columns_of fields) (name f)) as [g|] eqn:Hget.
    + exists g. split; [reflexivity|]. now apply Hsome in Hget.
    + apply dict_get_None in Hget. elim Hget.
      apply columns_keys_In. now apply in_map.
  - intro n. rewrite dict_get_None. now rewrite columns_keys_In.
Qed.

(** X7.  In a constructed schema the pointer columns and the non-pointer
    columns have no repetition and together are as many as the columns. *)
Theorem pointer_columns_count :
  forall (fields : list (SchemaField Codec)) (primary_keys : list string)
         (allow : bool) (s : DatasetSchema Codec),
    DatasetSchema_init json_dumps fields primary_keys allow = Ok s ->
    NoDup (get_pointer_columns s)
    /\ NoDup (get_non_pointer_columns s)
    /\ length (get_pointer_columns s) + length (get_non_pointer_columns s)
       = length (get_all_column_names s).
Proof.
  intros fields primary_keys allow s Hs.
  apply DatasetSchema_init_Ok in Hs. subst s.
  unfold get_pointer_columns, get_non_pointer_columns, get_all_column_names,
    dict_items, dict_keys. simpl.
  pose proof (columns_keys_NoDup fields) as Hnd.
  split; [now apply NoDup_map_fst_filter|].
  split; [now apply NoDup_map_fst_filter|].
  rewrite !length_map.
  apply (filter_split_length _ (fun item => is_heavy_pointer (snd item))).
Qed.

(** ** Primary keys of a schema *)

(** X8.  In a constructed schema every primary key is a non-pointer column:
    its column is a required int, long, string or bool field, is listed by
    [get_non_pointer_columns] and is not listed by [get_pointer_columns]. *)
Theorem primary_keys_are_non_pointer_columns :
  forall (fields : list (SchemaField Codec)) (keys : list string)
         (allow : bool) (s : DatasetSchema Codec),
    DatasetSchema_init json_dumps fields keys allow = Ok s ->
    primary_keys s = keys
    /\ forall key, In key keys ->
         (exists f, get_column s key = Some f
                    /\ required f = true
                    /\ In (type_of f)
                          [IntFieldT; LongFieldT; StringFieldT; BoolFieldT])
         /\ In key (get_non_pointer_columns s)
         /\ ~ In key (get_pointer_columns s).
Proof.
  intros fields keys allow s Hs.
  assert (Hok : succeeds (DatasetSchema_init json_dumps fields keys allow) = true)
    by now rewrite Hs.
  apply DatasetSchema_init_succeeds_iff in Hok as [_ Hall].
  apply DatasetSchema_init_Ok in Hs. subst s.
  split; [reflexivity|]. intros key Hin.
  rewrite Forall_forall in Hall.
  destruct (Hall key Hin) as [f [Hget [Hreq Hty]]].
  assert (Hlight : is_heavy_pointer f = false).
  { destruct f; try reflexivity. simpl in Hty. intuition discriminate. }
  unfold get_column, get_non_pointer_columns, get_pointer_columns, dict_items.
  simpl. pose proof (columns_keys_NoDup fields) as Hnd.
  split; [now exists f|]. split.
  - apply (filter_items_In (fun g => negb (is_heavy_pointer g)));
      [exact Hnd|].
    exists f. now rewrite Hlight.
  - intro Hptr. apply (filter_items_In is_heavy_pointer) in Hptr;
      [|exact Hnd].
    destruct Hptr as [g [Hg Hh]]. rewrite Hget in Hg. injection Hg as <-.
    congruence.
Qed.

(** X9.  The escape flag matters for an empty list of primary keys only:
    with at least one key the result of the construction is the same for
    both values of the flag, and a schema built without the flag is also
    built with it. *)
Theorem escape_flag_only_for_empty_keys :
  forall (fields : list (SchemaField Codec)) (keys : list string),
    (keys <> [] ->
     DatasetSchema_init json_dumps fields keys false
     = DatasetSchema_init json_dumps fields keys true)
    /\ (forall s,
          DatasetSchema_init json_dumps fields keys false = Ok s ->
          DatasetSchema_init json_dumps fields keys true = Ok s).
Proof.
  intros fields keys. rewrite !DatasetSchema_init_unfold. split.
  - intro Hne. destruct keys; [now elim Hne | reflexivity].
  - intro s. destruct keys; [discriminate | trivial].
Qed.

(** X10.  Whether a schema is accepted depends on which names are primary
    keys, not on their order or on repetitions: two key lists with the same
    members are both accepted or both refused. *)
Theorem key_order_irrelevant :
  forall (fields : list (SchemaField Codec)) (keys keys' : list string)
         (allow : bool),
    (forall key, In key keys <-> In key keys') ->
    succeeds (DatasetSchema_init json_dumps fields keys allow)
    = succeeds (DatasetSchema_init json_dumps fields keys' allow).
Proof.
  assert (Himp : forall (fields : list (SchemaField Codec)) keys keys' allow,
             (forall key, In key keys <-> In key keys') ->
             succeeds (DatasetSchema_init json_dumps fields keys allow) = true ->
             succeeds (DatasetSchema_init json_dumps fields keys' allow) = true).
  { intros fields keys keys' allow Hsame Hok.
    apply DatasetSchema_init_succeeds_iff in Hok as [Hne Hall].
    apply DatasetSchema_init_succeeds_iff. split.
    - destruct Hne as [Ha|Hne]; [now left|]. right. intro Hnil.
      destruct keys as [|k l]; [now elim Hne|].
      subst keys'. apply (Hsame k). now left.
    - rewrite Forall_forall in *. intros key Hin. apply Hall.
      now apply Hsame. }
  intros fields keys keys' allow Hsame.
  destruct (succeeds (DatasetSchema_init json_dumps fields keys allow)) eqn:H1;
    destruct (succeeds (DatasetSchema_init json_dumps fields keys' allow)) eqn:H2;
    try reflexivity.
  - rewrite (Himp fields keys keys' allow Hsame H1) in H2. discriminate.
  - rewrite (Himp fields keys' keys allow) in H1; [discriminate| |exact H2].
    intro key. symmetry. apply Hsame.
Qed.

(** ** More on equality *)

Lemma SchemaField_eq_trans : forall a b c : SchemaField Codec,
  SchemaField_eq a b = true -> SchemaField_eq b c = true ->
  SchemaField_eq a c = true.
Proof.
  intros a b c Hab Hbc. apply SchemaField_eq_iff in Hab, Hbc.
  apply SchemaField_eq_iff. intuition congruence.
Qed.

Lemma field_eq_type : forall a b : SchemaField Codec,
  field_eq a b = true -> type_of a = type_of b.
Proof.
  intros a b H. apply field_eq_base, SchemaField_eq_iff in H. tauto.
Qed.

Lemma all_zip_eq_trans : forall fs gs hs : list (SchemaField Codec),
  Forall (fun f => forall g h, field_eq f g = true -> field_eq g h = true ->
                               field_eq f h = true) fs ->
  length fs = length gs ->
  all_zip_eq fs gs = true -> all_zip_eq gs hs = true ->
  all_zip_eq fs hs = true.
Proof.
  intros fs gs hs H. revert gs hs.
  induction H as [|f fs Hf _ IH]; intros [|g gs] [|h hs] Hlen Hfg Hgh;
    simpl in *; try reflexivity; try discriminate.
  apply andb_true_iff in Hfg as [Hfg Hfgs].
  apply andb_true_iff in Hgh as [Hgh Hghs].
  rewrite (Hf g h Hfg Hgh). simpl.
  apply (IH gs hs); [now injection Hlen | assumption | assumption].
Qed.

Lemma list_str_eq_iff : forall l1 l2, list_str_eq l1 l2 = true <-> l1 = l2.
Proof.
  induction l1 as [|x l1 IH]; intros [|y l2]; simpl;
    try (split; [reflexivity | reflexivity]);
    try (split; discriminate).
  rewrite andb_true_iff, String.eqb_eq, IH. split.
  - intros [-> ->]. reflexivity.
  - intros [= -> ->]. now split.
Qed.

Section EqualityLaws.

Hypothesis codec_eq_refl : forall c : Codec, codec_eq c c = true.
Hypothesis codec_eq_sym : forall c d : Codec, codec_eq c d = codec_eq d c.
Hypothesis codec_eq_trans : forall c d e : Codec,
  codec_eq c d = true -> codec_eq d e = true -> codec_eq c e = true.

Lemma field_eq_trans :
  forall a b c : SchemaField Codec,
    field_eq a b = true -> field_eq b c = true -> field_eq a c = true.
Proof.
  induction a as [a Hleaf|ba fields IH|ba element_field IH]
    using SchemaField_nested_ind; intros b c Hab Hbc.
  - pose proof (field_eq_type _ _ Hab) as Tab.
    pose proof (field_eq_type _ _ Hbc) as Tbc.
    pose proof (SchemaField_eq_trans _ _ _ (field_eq_base _ _ Hab)
                  (field_eq_base _ _ Hbc)) as Hbase.
    destruct a; try contradiction;
      destruct b; try discriminate Tab;
      destruct c; try discriminate Tbc;
      try exact Hbase.
    rewrite field_eq_Object in *.
    apply andb_true_iff in Hab as [_ Hab].
    apply andb_true_iff in Hbc as [_ Hbc].
    rewrite Hbase. simpl. now apply codec_eq_trans with codec0.
  - pose proof (field_eq_type _ _ Hab) as Tab.
    pose proof (field_eq_type _ _ Hbc) as Tbc.
    pose proof (SchemaField_eq_trans _ _ _ (field_eq_base _ _ Hab)
                  (field_eq_base _ _ Hbc)) as Hbase.
    destruct b as [| | | | | |bb gs| |]; try discriminate Tab.
    destruct c as [| | | | | |bc hs| |]; try discriminate Tbc.
    rewrite field_eq_Record in *. rewrite Hbase. simpl.
    apply andb_true_iff in Hab as [_ Hab].
    apply andb_true_iff in Hbc as [_ Hbc].
    apply andb_true_iff in Hab as [Lab Zab].
    apply andb_true_iff in Hbc as [Lbc Zbc].
    apply Nat.eqb_eq in Lab, Lbc.
    apply andb_true_iff. split; [apply Nat.eqb_eq; congruence|].
    now apply all_zip_eq_trans with gs.
  - pose proof (field_eq_type _ _ Hab) as Tab.
    pose proof (field_eq_type _ _ Hbc) as Tbc.
    pose proof (SchemaField_eq_trans _ _ _ (field_eq_base _ _ Hab)
                  (field_eq_base _ _ Hbc)) as Hbase.
    destruct b as [| | | | | | |bb eb|]; try discriminate Tab.
    destruct c as [| | | | | | |bc ec|]; try discriminate Tbc.
    rewrite field_eq_Array in *. rewrite Hbase. simpl.
    apply andb_true_iff in Hab as [_ Hab].
    apply andb_true_iff in Hbc as [_ Hbc].
    now apply IH with eb.
Qed.

(** X11.  Equality of fields is transitive when the equality of codecs
    is: with reflexivity and symmetry, an equivalence on fields. *)
Theorem field_eq_transitive :
  forall a b c : SchemaField Codec,
    field_eq a b = true -> field_eq b c = true ->
    field_eq a c = true /\ field_eq c a = true.
Proof.
  intros a b c Hab Hbc.
  pose proof (field_eq_trans a b c Hab Hbc) as Hac.
  split; [exact Hac|]. now rewrite (field_eq_sym codec_eq_sym).
Qed.

(** X12.  Equality does not look at the custom tags, at [top_level] or at
    the heavy-pointer flag: two scalar fields, two records or two objects
    built from the same name, description, [required] and members or codec
    are equal, whatever these other arguments are. *)
Theorem equality_ignores_tags_and_flags :
  (forall (cls : Base -> SchemaField Codec) field_name description required
          tags1 tags2 f1 f2,
      In cls scalar_classes ->
      scalar_init cls field_name description required tags1 = Ok f1 ->
      scalar_init cls field_name description required tags2 = Ok f2 ->
      field_eq f1 f2 = true)
  /\ (forall record_name (fields : list (SchemaField Codec)) description
             required tags1 tags2 top_level1 top_level2 f1 f2,
        RecordField_init record_name fields description required tags1 top_level1
        = Ok f1 ->
        RecordField_init record_name fields description required tags2 top_level2
        = Ok f2 ->
        field_eq f1 f2 = true)
  /\ (forall field_name (codec : Codec) description required heavy1 heavy2 f1 f2,
        ObjectField_init field_name codec description required heavy1 = Ok f1 ->
        ObjectField_init field_name codec description required heavy2 = Ok f2 ->
        field_eq f1 f2 = true).
Proof.
  split; [|split].
  - intros cls field_name description required tags1 tags2 f1 f2 Hcls H1 H2.
    unfold scalar_init, SchemaField_init in H1, H2.
    destruct (name_re_match field_name); simpl in H1, H2; [|discriminate].
    injection H1 as <-. injection H2 as <-. simpl in Hcls.
    destruct Hcls as [<-|[<-|[<-|[<-|[<-|[<-|[]]]]]]];
      apply SchemaField_eq_iff; now repeat split.
  - intros record_name fields description required tags1 tags2 top_level1
      top_level2 f1 f2 H1 H2.
    unfold RecordField_init, SchemaField_init in H1, H2.
    destruct (name_re_match record_name); simpl in H1, H2; [|discriminate].
    destruct (negb top_level1 && _); [discriminate|].
    destruct (negb top_level2 && _); [discriminate|].
    injection H1 as <-. injection H2 as <-.
    rewrite field_eq_Record. apply andb_true_iff. split.
    + apply SchemaField_eq_iff. now repeat split.
    + rewrite Nat.eqb_refl. simpl. apply all_zip_eq_refl.
      apply Forall_forall. intros f _. now apply field_eq_refl.
  - intros field_name codec description required heavy1 heavy2 f1 f2 H1 H2.
    unfold ObjectField_init, SchemaField_init in H1, H2.
    destruct (str_truthy (get_codec_name codec)); simpl in H1, H2;
      [|discriminate].
    destruct (name_re_match field_name); simpl in H1, H2; [|discriminate].
    injection H1 as <-. injection H2 as <-.
    rewrite field_eq_Object. apply andb_true_iff. split.
    + apply SchemaField_eq_iff. now repeat split.
    + apply codec_eq_refl.
Qed.

(** X13.  Equality of schemas is reflexive, symmetric and transitive; two
    equal schemas have the same list of primary keys. *)
Theorem DatasetSchema_eq_equivalence :
  (forall s : DatasetSchema Codec, DatasetSchema_eq s s = true)
  /\ (forall s1 s2 : DatasetSchema Codec,
        DatasetSchema_eq s1 s2 = DatasetSchema_eq s2 s1)
  /\ (forall s1 s2 s3 : DatasetSchema Codec,
        DatasetSchema_eq s1 s2 = true -> DatasetSchema_eq s2 s3 = true ->
        DatasetSchema_eq s1 s3 = true)
  /\ (forall s1 s2 : DatasetSchema Codec,
        DatasetSchema_eq s1 s2 = true -> primary_keys s1 = primary_keys s2).
Proof.
  unfold DatasetSchema_eq. split; [|split; [|split]].
  - intro s. rewrite field_eq_refl by assumption.
    simpl. now apply list_str_eq_iff.
  - intros s1 s2. rewrite (field_eq_sym codec_eq_sym). f_equal.
    destruct (list_str_eq (primary_keys s2) (primary_keys s1)) eqn:H.
    + apply list_str_eq_iff in H. apply list_str_eq_iff. congruence.
    + apply not_true_is_false. intro H'. apply list_str_eq_iff in H'.
      rewrite H' in H.
      rewrite (proj2 (list_str_eq_iff _ _) eq_refl) in H. discriminate.
  - intros s1 s2 s3 H12 H23.
    apply andb_true_iff in H12 as [F12 K12].
    apply andb_true_iff in H23 as [F23 K23].
    apply andb_true_iff. split.
    + now apply field_eq_trans with (schema_record s2).
    + apply list_str_eq_iff in K12, K23. apply list_str_eq_iff. congruence.
  - intros s1 s2 H. apply andb_true_iff in H as [_ H].
    now apply list_str_eq_iff.
Qed.

End EqualityLaws.

(** ** Equal schemas and their columns *)

Lemma dict_set_related :
  forall (d1 d2 : dict (SchemaField Codec)) (f g : SchemaField Codec),
  Forall2 (fun x y => fst x = fst y /\ field_eq (snd x) (snd y) = true) d1 d2 ->
  field_eq f g = true ->
  Forall2 (fun x y => fst x = fst y /\ field_eq (snd x) (snd y) = true)
          (dict_set d1 (name f) f) (dict_set d2 (name g) g).
Proof.
  intros d1 d2 f g Hrel Hfg.
  assert (Hname : name f = name g).
  { apply field_eq_base, SchemaField_eq_iff in Hfg. tauto. }
  rewrite <- Hname.
  induction Hrel as [|[k1 v1] [k2 v2] d1 d2 [Hk Hv] Htail IH]; simpl.
  - constructor; [now split | constructor].
  - simpl in Hk, Hv. subst k2.
    destruct (String.eqb k1 (name f)).
    + constructor; [now split | exact Htail].
    + constructor; [now split | exact IH].
Qed.

Lemma columns_of_related : forall fields1 fields2 : list (SchemaField Codec),
  Forall2 (fun f g => field_eq f g = true) fields1 fields2 ->
  Forall2 (fun x y => fst x = fst y /\ field_eq (snd x) (snd y) = true)
          (columns_of fields1) (columns_of fields2).
Proof.
  intros fields1 fields2 H. unfold columns_of.
  assert (Hgen : forall d1 d2 : dict (SchemaField Codec),
             Forall2 (fun x y => fst x = fst y /\ field_eq (snd x) (snd y) = true)
                     d1 d2 ->
             Forall2 (fun x y => fst x = fst y /\ field_eq (snd x) (snd y) = true)
                     (fold_left (fun d f => dict_set d (name f) f) fields1 d1)
                     (fold_left (fun d f => dict_set d (name f) f) fields2 d2)).
  { induction H as [|f g l1 l2 Hfg _ IH]; intros d1 d2 Hd; simpl;
      [exact Hd|].
    apply IH. now apply dict_set_related. }
  apply Hgen. constructor.
Qed.

Lemma related_dict_get : forall (d1 d2 : dict (SchemaField Codec)) n,
  Forall2 (fun x y => fst x = fst y /\ field_eq (snd x) (snd y) = true) d1 d2 ->
  match dict_get d1 n, dict_get d2 n with
  | Some f, Some g => field_eq f g = true
  | None, None => True
  | _, _ => False
  end.
Proof.
  intros d1 d2 n H.
  induction H as [|[k1 v1] [k2 v2] d1 d2 [Hk Hv] _ IH]; simpl; [exact I|].
  simpl in Hk, Hv. subst k2.
  destruct (String.eqb k1 n); [exact Hv | exact IH].
Qed.

(** X14.  Two constructed schemas that are equal have the same column
    names in the same order, and under every name either both have no column
    or their columns are equal fields. *)
Theorem equal_schemas_have_equal_columns :
  forall (fields1 fields2 : list (SchemaField Codec)) (keys1 keys2 : list string)
         (allow1 allow2 : bool) (s1 s2 : DatasetSchema Codec),
    DatasetSchema_init json_dumps fields1 keys1 allow1 = Ok s1 ->
    DatasetSchema_init json_dumps fields2 keys2 allow2 = Ok s2 ->
    DatasetSchema_eq s1 s2 = true ->
    get_all_column_names s1 = get_all_column_names s2
    /\ forall n,
         match get_column s1 n, get_column s2 n with
         | Some f, Some g => field_eq f g = true
         | None, None => True
         | _, _ => False
         end.
Proof.
  intros fields1 fields2 keys1 keys2 allow1 allow2 s1 s2 H1 H2 Heq.
  apply DatasetSchema_init_Ok in H1, H2. subst s1 s2.
  unfold DatasetSchema_eq, built_schema in Heq.
  cbn [schema_record] in Heq.
  apply andb_true_iff in Heq as [Heq _].
  rewrite field_eq_Record in Heq.
  apply andb_true_iff in Heq as [_ Heq].
  apply all_zip_eq_Forall2 in Heq.
  pose proof (columns_of_related _ _ Heq) as Hrel.
  unfold get_all_column_names, get_column, dict_keys. simpl. split.
  - clear Heq. induction Hrel as [|x y d1 d2 [Hk _] _ IH]; simpl;
      [reflexivity|].
    now rewrite Hk, IH.
  - intro n. now apply related_dict_get.
Qed.

(** ** The visitor *)

(** Two fields that compare equal are handled by the same method of every
    visitor: the class of a field alone chooses the method, and equal fields
    are of one class. *)
Lemma equal_fields_same_visitor_method :
  forall (T : Type) (visitor : @DatasetSchemaVisitor Codec T)
         (a b : SchemaField Codec),
    field_eq a b = true ->
    exists method,
      In method [process_int_field visitor; process_long_field visitor;
                 process_string_field visitor; process_bool_field visitor;
                 process_float_field visitor; process_double_field visitor;
                 process_object_field visitor; process_record_field visitor;
                 process_array_field visitor]
      /\ accept_visitor a visitor = method a
      /\ accept_visitor b visitor = method b.
Proof.
  intros T visitor a b Heq. pose proof (field_eq_type _ _ Heq) as Ht.
  destruct a; destruct b; try discriminate Ht; eexists;
    (split; [|split; reflexivity]); simpl; tauto.
Qed.

(** X15.  Visiting respects equality: when each method of a visitor gives
    the same result on any two equal fields, [accept_visitor] gives the same
    result on any two equal fields, because equal fields are dispatched to
    the same method. *)
Theorem visiting_respects_equality :
  forall (T : Type) (visitor : @DatasetSchemaVisitor Codec T)
         (a b : SchemaField Codec),
    (forall method,
        In method [process_int_field visitor; process_long_field visitor;
                   process_string_field visitor; process_bool_field visitor;
                   process_float_field visitor; process_double_field visitor;
                   process_object_field visitor; process_record_field visitor;
                   process_array_field visitor] ->
        forall x y, field_eq x y = true -> method x = method y) ->
    field_eq a b = true ->
    accept_visitor a visitor = accept_visitor b visitor.
Proof.
  intros T visitor a b Hmethods Heq.
  destruct (equal_fields_same_visitor_method T visitor a b Heq)
    as [method [Hin [Ha Hb]]].
  rewrite Ha, Hb. now apply Hmethods.
Qed.

(** ** The heavy-pointer message for names of the grammar *)

Lemma class_word_repr : forall c,
  class_word c = true ->
  repr_char SQUOTE c = String c "" /\ Ascii.eqb SQUOTE c = false.
Proof.
  intros [[] [] [] [] [] [] [] []] H; vm_compute in H; try discriminate H;
    split; reflexivity.
Qed.

Lemma class_alpha_word : forall c, class_alpha c = true -> class_word c = true.
Proof.
  intros c H. unfold class_alpha in H. unfold class_word.
  apply orb_true_iff in H as [H|H]; rewrite H;
    rewrite ?orb_true_r; reflexivity.
Qed.

Lemma all_word_repr : forall s,
  all_word s = true -> py_repr s = String SQUOTE (s ++ String SQUOTE "").
Proof.
  intros s Hs.
  assert (Hq : contains_char SQUOTE s = false).
  { induction s as [|c s IH]; cbn [contains_char all_word] in *;
      [reflexivity|].
    apply andb_true_iff in Hs as [Hc Hs].
    rewrite (proj2 (class_word_repr c Hc)). now apply IH. }
  unfold py_repr, repr_quote. rewrite Hq. cbn [andb]. f_equal. f_equal.
  clear Hq. induction s as [|c s IH]; cbn [repr_body all_word] in *;
    [reflexivity|].
  apply andb_true_iff in Hs as [Hc Hs].
  rewrite (proj1 (class_word_repr c Hc)), (IH Hs). reflexivity.
Qed.

(** X16.  When the heavy-pointer children of a refused record have names of
    the grammar, the message is the fixed text followed by these names, each
    between single quotes, separated by a comma and a space, between square
    brackets. *)
Theorem heavy_message_for_grammar_names :
  forall (record_name : string) (fields : list (SchemaField Codec))
         (description : string) (required : bool) (tags : dict string),
    name_re_match record_name = true ->
    existsb is_heavy_pointer fields = true ->
    (forall f, In f fields -> is_heavy_pointer f = true ->
               name_grammar (name f) = true) ->
    RecordField_init record_name fields description required tags false
    = Raise (WickerSchemaException
               ("Heavy pointer fields cannot be nested in a RecordField: ["
                ++ String.concat ", "
                     (map (fun n => String SQUOTE (n ++ String SQUOTE ""))
                          (heavy_names fields))
                ++ "]")).
Proof.
  intros record_name fields description required tags Hn Hheavy Hnames.
  unfold RecordField_init, SchemaField_init. rewrite Hn, Hheavy. simpl.
  do 2 f_equal. unfold HEAVY_ERROR, py_repr_list.
  replace (map py_repr (heavy_names fields))
    with (map (fun n => String SQUOTE (n ++ String SQUOTE "")) (heavy_names fields)).
  - reflexivity.
  - apply map_ext_in. intros n Hin. symmetry. apply all_word_repr.
    apply heavy_names_In in Hin as [f [Hf [Hh <-]]].
    specialize (Hnames f Hf Hh).
    destruct (name f) as [|c rest]; [discriminate|]. simpl in *.
    apply andb_true_iff in Hnames as [Hc Hrest].
    now rewrite (class_alpha_word c Hc), Hrest.
Qed.

End MoreProperties.

(** ** Examples for the further properties *)

Lemma name_check_accepts_witness :
  succeeds (scalar_init (@IntField NamedCodec) ("id" ++ String LF "") "" true [])
  = true.
Proof.
  apply (name_check_accepts (@IntField NamedCodec) ("id" ++ String LF "") "" true []).
  right. exists "id". split; reflexivity.
Defined.

Lemma underscore_names_reserved_witness :
  ~ In (name blob)
       [PRIMARY_KEYS_TAG; "_l5ml_metatype"; "_codec_params"; "_codec_name"].
Proof.
  exact (proj2 (proj2 (proj2 underscore_names_reserved))
           "blob" blob_codec "" true true blob eq_refl).
Defined.

Lemma constructors_keep_well_formed_witness :
  well_formed blob_array
  /\ well_formed (RecordField (plain "pair" true) [blob_array; id_field]).
Proof.
  pose proof (constructors_keep_well_formed (Codec := NamedCodec) json_dumps_plain)
    as [Hscalar [Hrecord [Harray [Hobject _]]]].
  assert (Hblob : well_formed blob).
  { exact (Hobject "blob" blob_codec "" true true blob eq_refl). }
  assert (Hid : well_formed id_field).
  { apply (Hscalar LongField "id" "" true [] id_field);
      [right; left; reflexivity | reflexivity]. }
  assert (Harr : well_formed blob_array).
  { exact (Harray blob true blob_array Hblob eq_refl). }
  split; [exact Harr|].
  apply (Hrecord "pair" [blob_array; id_field] "" true [] false).
  - constructor; [exact Harr | constructor; [exact Hid | constructor]].
  - reflexivity.
Defined.

Lemma heavy_check_direct_children_witness :
  is_heavy_pointer blob = true
  /\ is_heavy_pointer blob_array = false
  /\ RecordField_init "nested" [blob_array] "" true [] false
     = Ok (RecordField (plain "nested" true) [blob_array]).
Proof.
  pose proof (heavy_check_direct_children (Codec := NamedCodec))
    as [_ [_ Harray]].
  split; [reflexivity|].
  exact (Harray blob true blob_array "nested" "" true [] eq_refl eq_refl).
Defined.

Lemma array_of_well_formed_witness :
  exists array,
    ArrayField_init id_field false = Ok array
    /\ name array = name id_field
    /\ description array = description id_field
    /\ custom_field_tags array = custom_field_tags id_field
    /\ required array = false
    /\ well_formed array.
Proof.
  apply (array_of_well_formed id_field false).
  split; [reflexivity | exact I].
Defined.

Lemma column_index_witness :
  NoDup (get_all_column_names
           (built_schema json_dumps_plain [data_int; id_field; data_string] ["id"]))
  /\ get_column
       (built_schema json_dumps_plain [data_int; id_field; data_string] ["id"])
       "missing" = None.
Proof.
  pose proof (column_index json_dumps_plain
                [data_int; id_field; data_string] ["id"] false
                (built_schema json_dumps_plain
                   [data_int; id_field; data_string] ["id"]) eq_refl)
    as [Hnd [_ [_ [_ Hnone]]]].
  split; [exact Hnd|].
  apply Hnone. simpl. intuition discriminate.
Defined.

Lemma pointer_columns_count_witness :
  length (get_pointer_columns
            (built_schema json_dumps_plain [blob; id_field; data_object] ["id"]))
  + length (get_non_pointer_columns
              (built_schema json_dumps_plain [blob; id_field; data_object] ["id"]))
  = length (get_all_column_names
              (built_schema json_dumps_plain [blob; id_field; data_object] ["id"])).
Proof.
  exact (proj2 (proj2 (pointer_columns_count json_dumps_plain
                         [blob; id_field; data_object] ["id"] false
                         (built_schema json_dumps_plain
                            [blob; id_field; data_object] ["id"]) eq_refl))).
Defined.

Lemma primary_keys_are_non_pointer_columns_witness :
  In "id" (get_non_pointer_columns
             (built_schema json_dumps_plain [blob; id_field; label_field]
                ["label"; "id"]))
  /\ ~ In "id" (get_pointer_columns
                  (built_schema json_dumps_plain [blob; id_field; label_field]
                     ["label"; "id"])).
Proof.
  pose proof (primary_keys_are_non_pointer_columns json_dumps_plain
                [blob; id_field; label_field] ["label"; "id"] false
                (built_schema json_dumps_plain [blob; id_field; label_field]
                   ["label"; "id"]) eq_refl) as [_ Hkeys].
  destruct (Hkeys "id") as [_ H]; [right; left; reflexivity|].
  exact H.
Defined.

Lemma escape_flag_only_for_empty_keys_witness :
  DatasetSchema_init json_dumps_plain [id_field; score_field] ["score"] false
  = DatasetSchema_init json_dumps_plain [id_field; score_field] ["score"] true.
Proof.
  apply (proj1 (escape_flag_only_for_empty_keys json_dumps_plain
                  [id_field; score_field] ["score"])).
  discriminate.
Defined.

Lemma key_order_irrelevant_witness :
  succeeds (DatasetSchema_init json_dumps_plain [id_field; label_field]
              ["id"; "label"] false)
  = succeeds (DatasetSchema_init json_dumps_plain [id_field; label_field]
                ["label"; "id"; "label"] false).
Proof.
  apply (key_order_irrelevant json_dumps_plain [id_field; label_field]
           ["id"; "label"] ["label"; "id"; "label"] false).
  intro key. simpl. tauto.
Defined.

Lemma NamedCodec_eq_refl : forall c : NamedCodec, codec_eq c c = true.
Proof. intro c. simpl. now rewrite !String.eqb_refl. Defined.

Lemma NamedCodec_eq_sym : forall c d : NamedCodec, codec_eq c d = codec_eq d c.
Proof.
  intros c d. simpl.
  now rewrite (String.eqb_sym (nc_name c)), (String.eqb_sym (nc_params c)).
Defined.

Lemma NamedCodec_eq_trans : forall c d e : NamedCodec,
  codec_eq c d = true -> codec_eq d e = true -> codec_eq c e = true.
Proof.
  intros c d e Hcd Hde. simpl in *.
  apply andb_true_iff in Hcd as [N1 P1]. apply andb_true_iff in Hde as [N2 P2].
  apply String.eqb_eq in N1, P1, N2, P2.
  rewrite N1, N2, P1, P2. now rewrite !String.eqb_refl.
Defined.

Lemma field_eq_transitive_witness :
  field_eq blob (ObjectField (plain "blob" true) true blob_codec) = true
  /\ field_eq (ObjectField (plain "blob" true) true blob_codec) blob = true.
Proof.
  apply (field_eq_transitive NamedCodec_eq_sym NamedCodec_eq_trans
           blob light_blob (ObjectField (plain "blob" true) true blob_codec));
    reflexivity.
Defined.

Lemma equality_ignores_tags_and_flags_witness :
  field_eq blob light_blob = true.
Proof.
  exact (proj2 (proj2 (equality_ignores_tags_and_flags NamedCodec_eq_refl))
           "blob" blob_codec "" true true false blob light_blob
           eq_refl eq_refl).
Defined.

Lemma DatasetSchema_eq_equivalence_witness :
  DatasetSchema_eq
    (built_schema json_dumps_plain [blob; id_field] ["id"])
    (built_schema json_dumps_plain [blob; id_field] ["id"]) = true.
Proof.
  apply (proj1 (DatasetSchema_eq_equivalence NamedCodec_eq_refl
                  NamedCodec_eq_sym NamedCodec_eq_trans)).
Defined.

Lemma equal_schemas_have_equal_columns_witness :
  get_all_column_names (built_schema json_dumps_plain [blob; id_field] ["id"])
  = get_all_column_names
      (built_schema json_dumps_plain [light_blob; id_field] ["id"]).
Proof.
  refine (proj1 (equal_schemas_have_equal_columns json_dumps_plain
                   [blob; id_field] [light_blob; id_field] ["id"] ["id"]
                   false false
                   (built_schema json_dumps_plain [blob; id_field] ["id"])
                   (built_schema json_dumps_plain [light_blob; id_field] ["id"])
                   eq_refl eq_refl _)).
  reflexivity.
Defined.

Lemma heavy_message_for_grammar_names_witness :
  RecordField_init "nested" [blob; id_field; data_object] "" true [] false
  = Raise (WickerSchemaException
             ("Heavy pointer fields cannot be nested in a RecordField: ["
              ++ String.concat ", "
                   (map (fun n => String SQUOTE (n ++ String SQUOTE ""))
                        (heavy_names [blob; id_field; data_object]))
              ++ "]")).
Proof.
  apply (heavy_message_for_grammar_names "nested" [blob; id_field; data_object]
           "" true [] eq_refl eq_refl).
  intros f [<-|[<-|[<-|[]]]] Hh; reflexivity.
Defined.

(** * Which check raises which error *)

Section ErrorKinds.

Context {Codec : Type} {codec_interface : CodecInterface Codec}.
Variable json_dumps : list string -> string.

Lemma check_key_Raise : forall (columns : dict (SchemaField Codec)) key e,
  check_key columns key = Raise e ->
  e = WickerSchemaException (KEY_NOT_FOUND_ERROR key)
  \/ e = WickerSchemaException (KEY_NOT_REQUIRED_ERROR key)
  \/ e = WickerSchemaException (KEY_TYPE_ERROR key).
Proof.
  intros columns key e. unfold check_key.
  destruct (dict_get columns key) as [field|]; [|intros [= <-]; now left].
  destruct (negb (required field)); [intros [= <-]; right; now left|].
  destruct (negb (existsb (isinstance field) supported_types));
    [intros [= <-]; right; now right | discriminate].
Qed.

Lemma check_keys_Raise : forall (columns : dict (SchemaField Codec)) keys e,
  check_keys columns keys = Raise e ->
  exists key, In key keys /\ check_key columns key = Raise e.
Proof.
  intros columns keys e. induction keys as [|key rest IH]; simpl;
    [discriminate|].
  destruct (check_key columns key) as [[]|e'] eqn:Hk; simpl.
  - intro H. destruct (IH H) as [k [Hin Hk']]. exists k. split; [now right|].
    exact Hk'.
  - intros [= <-]. exists key. split; [now left | exact Hk].
Qed.

Lemma comprehension_filter :
  forall (A B : Type) (p : A -> bool) (out : A -> B) (l : list A),
  comprehension (fun x => Ok (p x)) out l = Ok (map out (filter p l)).
Proof.
  intros A B p out l. induction l as [|x l IH]; simpl; [reflexivity|].
  rewrite IH. simpl. now destruct (p x).
Qed.

(** C2 (amended).  Each failing check raises its own kind of error.  A name
    that fails the name check raises [ValueError] with the name message, in
    the scalar constructors, in [ArrayField], in [RecordField] and (once the
    codec has a name) in [ObjectField].  Heavy-pointer children of a record
    that is not top-level raise [WickerSchemaException] with the
    heavy-pointer message, an empty codec name raises
    [WickerSchemaException] with the codec message, and [DatasetSchema]
    fails exactly when the key list is empty without the escape flag or some
    key does not pass its checks, then with a [WickerSchemaException] whose
    message is the emptiness message or the not-found, not-required or type
    message of one of the keys.  When none of its checks fails, a
    constructor returns.  The four query operations return for every schema
    and every argument. *)
Theorem validation_errors_by_kind :
  (forall (cls : Base -> SchemaField Codec) field_name description required tags,
      name_re_match field_name = false ->
      scalar_init cls field_name description required tags
      = Raise (ValueError NAME_ERROR))
  /\ (forall (element_field : SchemaField Codec) required,
        name_re_match (name element_field) = false ->
        ArrayField_init element_field required = Raise (ValueError NAME_ERROR))
  /\ (forall record_name (fields : list (SchemaField Codec)) description
             required tags top_level,
        name_re_match record_name = false ->
        RecordField_init record_name fields description required tags top_level
        = Raise (ValueError NAME_ERROR))
  /\ (forall field_name (codec : Codec) description required heavy,
        get_codec_name codec <> "" ->
        name_re_match field_name = false ->
        ObjectField_init field_name codec description required heavy
        = Raise (ValueError NAME_ERROR))
  /\ (forall record_name (fields : list (SchemaField Codec)) description
             required tags,
        name_re_match record_name = true ->
        existsb is_heavy_pointer fields = true ->
        RecordField_init record_name fields description required tags false
        = Raise (WickerSchemaException (HEAVY_ERROR (heavy_names fields))))
  /\ (forall field_name (codec : Codec) description required heavy,
        get_codec_name codec = "" ->
        ObjectField_init field_name codec description required heavy
        = Raise (WickerSchemaException CODEC_ERROR))
  /\ (forall (fields : list (SchemaField Codec)) keys allow,
        (raises (DatasetSchema_init json_dumps fields keys allow) = true
         <-> (allow = false /\ keys = [])
             \/ ~ Forall (key_passes (columns_of fields)) keys)
        /\ (raises (DatasetSchema_init json_dumps fields keys allow) = true ->
            exists msg,
              DatasetSchema_init json_dumps fields keys allow
              = Raise (WickerSchemaException msg)
              /\ In msg (EMPTY_KEYS_ERROR
                         :: map KEY_NOT_FOUND_ERROR keys
                         ++ map KEY_NOT_REQUIRED_ERROR keys
                         ++ map KEY_TYPE_ERROR keys)))
  /\ (forall (cls : Base -> SchemaField Codec) field_name description required tags,
        succeeds (scalar_init cls field_name description required tags)
        = name_re_match field_name)
  /\ (forall (element_field : SchemaField Codec) required,
        succeeds (ArrayField_init element_field required)
        = name_re_match (name element_field))
  /\ (forall record_name (fields : list (SchemaField Codec)) description
             required tags top_level,
        succeeds (RecordField_init record_name fields description required tags
                    top_level)
        = name_re_match record_name
          && (top_level || negb (existsb is_heavy_pointer fields)))
  /\ (forall field_name (codec : Codec) description required heavy,
        succeeds (ObjectField_init field_name codec description required heavy)
        = str_truthy (get_codec_name codec) && name_re_match field_name)
  /\ (forall s : DatasetSchema Codec,
        get_all_column_names_call s = Ok (get_all_column_names s)
        /\ get_pointer_columns_call s = Ok (get_pointer_columns s)
        /\ get_non_pointer_columns_call s = Ok (get_non_pointer_columns s)
        /\ forall column_name,
             get_column_call s column_name = Ok (get_column s column_name)).
Proof.
  split; [|split; [|split; [|split; [|split; [|split; [|split]]]]]].
  - intros cls field_name description required tags Hn.
    unfold scalar_init, SchemaField_init. now rewrite Hn.
  - intros element_field required Hn.
    unfold ArrayField_init, SchemaField_init. now rewrite Hn.
  - intros record_name fields description required tags top_level Hn.
    unfold RecordField_init, SchemaField_init. now rewrite Hn.
  - intros field_name codec description required heavy Hc Hn.
    unfold ObjectField_init, SchemaField_init.
    destruct (get_codec_name codec); [now elim Hc|]. simpl. now rewrite Hn.
  - intros record_name fields description required tags Hn Hh.
    unfold RecordField_init, SchemaField_init. now rewrite Hn, Hh.
  - intros field_name codec description required heavy Hc.
    unfold ObjectField_init. now rewrite Hc.
  - intros fields keys allow. split.
    + unfold raises. rewrite negb_true_iff.
      pose proof (DatasetSchema_init_succeeds_iff json_dumps fields keys allow)
        as Hiff.
      destruct (succeeds (DatasetSchema_init json_dumps fields keys allow)).
      * split; [discriminate|].
        destruct (proj1 Hiff eq_refl) as [Hne Hall].
        intros [[Ha Hk]|Hbad]; [|now elim Hbad].
        destruct Hne as [Hne|Hne]; [congruence | now elim Hne].
      * split; [|reflexivity]. intros _.
        destruct allow; [right|].
        -- intro Hall. assert (false = true) as Habs; [|discriminate Habs].
           apply Hiff. split; [now left | exact Hall].
        -- destruct keys as [|key rest]; [left; now split|]. right.
           intro Hall. assert (false = true) as Habs; [|discriminate Habs].
           apply Hiff. split; [right; discriminate | exact Hall].
    + rewrite DatasetSchema_init_unfold.
      destruct (negb allow && _).
      * intros _. exists EMPTY_KEYS_ERROR. split; [reflexivity | now left].
      * destruct (check_keys (columns_of fields) keys) as [[]|e] eqn:Hk;
          [discriminate|].
        intros _. apply check_keys_Raise in Hk as [key [Hin Hk]].
        apply check_key_Raise in Hk as [ -> | [ -> | -> ] ]; eexists;
          (split; [reflexivity|]); right; rewrite !in_app_iff.
        -- left. now apply in_map.
        -- right. left. now apply in_map.
        -- right. right. now apply in_map.
  - split; [apply scalar_init_succeeds|].
    split; [apply ArrayField_init_succeeds|].
    split; [apply RecordField_init_succeeds|].
    split; [apply ObjectField_init_succeeds|].
    intro s. split; [reflexivity|]. split; [|split].
    + unfold get_pointer_columns_call, get_pointer_columns, is_heavy_pointer_call.
      apply (comprehension_filter _ _ (fun item => is_heavy_pointer (snd item))).
    + unfold get_non_pointer_columns_call, get_non_pointer_columns,
        is_heavy_pointer_call. simpl.
      apply (comprehension_filter _ _
               (fun item => negb (is_heavy_pointer (snd item)))).
    + reflexivity.
Qed.

End ErrorKinds.

Lemma validation_errors_by_kind_witness :
  IntField_init (Codec := NamedCodec) "_id" "" true []
  = Raise (ValueError NAME_ERROR)
  /\ ObjectField_init "1blob" blob_codec "" true true
     = Raise (ValueError NAME_ERROR)
  /\ RecordField_init "nested" [blob] "" true [] false
     = Raise (WickerSchemaException (HEAVY_ERROR (heavy_names [blob])))
  /\ ObjectField_init "blob" unnamed_codec "" true true
     = Raise (WickerSchemaException CODEC_ERROR)
  /\ raises (DatasetSchema_init json_dumps_plain [id_field; score_field]
               ["score"] false) = true.
Proof.
  pose proof (validation_errors_by_kind (Codec := NamedCodec) json_dumps_plain)
    as [Hscalar [_ [_ [Hobject [Hheavy [Hcodec [Hkeys _]]]]]]].
  split; [|split; [|split; [|split]]].
  - exact (Hscalar IntField "_id" "" true [] eq_refl).
  - apply (Hobject "1blob" blob_codec "" true true); [discriminate | reflexivity].
  - exact (Hheavy "nested" [blob] "" true [] eq_refl eq_refl).
  - exact (Hcodec "blob" unnamed_codec "" true true eq_refl).
  - apply (proj1 (Hkeys [id_field; score_field] ["score"] false)).
    right. intro Hall. inversion Hall as [|? ? [f [Hget [_ Hty]]] _]; subst.
    injection Hget as <-. simpl in Hty. intuition discriminate.
Defined.

(** C5, as stated, fails: with the keys [score], which is not required, and
    [missing], which names no column, checking existence before requiredness
    gives the error of [missing], and the construction gives the error of
    [score]. *)
Lemma checks_run_key_by_key :
  validate_in_phases (columns_of [id_field; optional_score])
    ["score"; "missing"] false
  = Raise (WickerSchemaException (KEY_NOT_FOUND_ERROR "missing"))
  /\ DatasetSchema_init json_dumps_plain [id_field; optional_score]
       ["score"; "missing"] false
     = Raise (WickerSchemaException (KEY_NOT_REQUIRED_ERROR "score"))
  /\ DatasetSchema_init json_dumps_plain [id_field; optional_score]
       ["score"; "missing"] false
     <> _ <- validate_in_phases (columns_of [id_field; optional_score])
               ["score"; "missing"] false ;;
        Ok (built_schema json_dumps_plain [id_field; optional_score]
              ["score"; "missing"]).
Proof.
  split; [reflexivity|]. split; [reflexivity|]. discriminate.
Qed.

Lemma visiting_respects_equality_witness :
  accept_visitor blob class_visitor = accept_visitor light_blob class_visitor.
Proof.
  apply (visiting_respects_equality FieldClass class_visitor blob light_blob).
  - intros method Hin x y _. simpl in Hin.
    destruct Hin as [<-|[<-|[<-|[<-|[<-|[<-|[<-|[<-|[<-|[]]]]]]]]]];
      reflexivity.
  - reflexivity.
Defined.
